(** * Stripe webhook reconciler: a shallow embedding of
      [src/app/api/stripe/webhook/route.ts]

    The handler [POST] receives a billing event, resolves the user it
    belongs to, enforces the single-active-subscription rule and upserts
    a row of the [subscriptions] table.  The embedding keeps the shape of
    the TypeScript: the two tables are lists of rows, the two module-level
    [Map]s are finite maps, every [await] on the store or on the provider
    is a primitive of a small state-and-exception monad, and [try]/[catch]
    is a combinator of that monad.

    Conventions of the embedding:
    - [logWebhookEvent] only writes to the console and is left out;
    - identifiers, statuses and emails are strings, compared as strings;
    - a timestamp is the number of milliseconds its ISO string denotes;
      every [new Date()] of one request reads the same instant, and a
      period end is a whole number of seconds, whose conversion by
      [new Date(..).toISOString()] throws outside the range of [Date];
    - what a request meets outside the process (failing calls, the clock,
      the provider's records) is an [Env], chosen afresh for each request. *)

From Stdlib Require Import ZArith String Ascii List Bool Lia.
From stdpp Require Import base option list strings gmap.

Local Open Scope Z_scope.
Local Open Scope string_scope.
Local Open Scope list_scope.

(** ** JavaScript values used by the handler *)

(** A field typed [string | null]: [None] is [null]/[undefined]. *)
Definition truthy (v : option string) : bool :=
  match v with
  | Some s => negb (String.eqb s "")
  | None => false
  end.

(** [a || b] on two nullable strings. *)
Definition js_or (a b : option string) : option string :=
  if truthy a then a else b.

(** [v as string], after [v] was tested truthy; [''] stands for a value
    that the guard in front of the use excludes. *)
Definition as_string (v : option string) : string :=
  match v with Some s => s | None => "" end.

(** ** The identifier format test of line 155

    [/^[0-9a-f]{8}-[0-9a-f]{4}-[0-9a-f]{4}-[0-9a-f]{4}-[0-9a-f]{12}$/i] *)

Definition is_hex (c : ascii) : bool :=
  let n := nat_of_ascii c in
  ((48 <=? n) && (n <=? 57) || (97 <=? n) && (n <=? 102)
   || (65 <=? n) && (n <=? 70))%nat.

Fixpoint take_hex (n : nat) (s : list ascii) : option (list ascii) :=
  match n with
  | O => Some s
  | S n' =>
      match s with
      | c :: s' => if is_hex c then take_hex n' s' else None
      | [] => None
      end
  end.

Definition take_dash (s : list ascii) : option (list ascii) :=
  match s with
  | c :: s' => if Ascii.eqb c "-" then Some s' else None
  | [] => None
  end.

Definition then_hex (n : nat) (r : option (list ascii)) : option (list ascii) :=
  match r with Some s => take_hex n s | None => None end.

Definition then_dash (r : option (list ascii)) : option (list ascii) :=
  match r with Some s => take_dash s | None => None end.

Definition uuid_regex_match (s : string) : bool :=
  let g1 := take_hex 8 (list_ascii_of_string s) in
  let g2 := then_hex 4 (then_dash g1) in
  let g3 := then_hex 4 (then_dash g2) in
  let g4 := then_hex 4 (then_dash g3) in
  let g5 := then_hex 12 (then_dash g4) in
  match g5 with
  | Some [] => true
  | _ => false
  end.

(** ** The store's [ILIKE], as reached through [.ilike('email', email)]

    The second argument of [.ilike] is a pattern: PostgREST maps [*] to
    [%] before the pattern reaches the database, where [%] matches any
    run of characters, [_] any one character, and a backslash quotes the
    character after it (a pattern that ends in a lone backslash is an
    error, so no row matches).  Letters compare without case; the fold below is the ASCII
    one. *)

Definition lower (c : ascii) : ascii :=
  let n := nat_of_ascii c in
  if ((65 <=? n) && (n <=? 90))%nat then ascii_of_nat (n + 32) else c.

Definition eqb_ci (a b : ascii) : bool := Ascii.eqb (lower a) (lower b).

Fixpoint like_ci (p : list ascii) : list ascii -> bool :=
  match p with
  | [] => fun t => match t with [] => true | _ :: _ => false end
  | c :: p' =>
      if Ascii.eqb c "%" || Ascii.eqb c "*" then
        fix any (t : list ascii) : bool :=
          like_ci p' t || match t with [] => false | _ :: t' => any t' end
      else if Ascii.eqb c "_" then
        fun t => match t with [] => false | _ :: t' => like_ci p' t' end
      else if Ascii.eqb c "\" then
        match p' with
        | [] => fun _ => false
        | d :: p'' =>
            fun t =>
              match t with
              | [] => false
              | x :: t' =>
                  eqb_ci (if Ascii.eqb d "*" then "%"%char else d) x
                  && like_ci p'' t'
              end
        end
      else
        fun t =>
          match t with
          | [] => false
          | x :: t' => eqb_ci c x && like_ci p' t'
          end
  end.

Definition ilike (text pattern : string) : bool :=
  like_ci (list_ascii_of_string pattern) (list_ascii_of_string text).

(** The database's own [ILIKE], as a function of the database calls it:
    the same matching, except that [*] is an ordinary character. *)
Fixpoint pg_like_ci (p : list ascii) : list ascii -> bool :=
  match p with
  | [] => fun t => match t with [] => true | _ :: _ => false end
  | c :: p' =>
      if Ascii.eqb c "%" then
        fix any (t : list ascii) : bool :=
          pg_like_ci p' t || match t with [] => false | _ :: t' => any t' end
      else if Ascii.eqb c "_" then
        fun t => match t with [] => false | _ :: t' => pg_like_ci p' t' end
      else if Ascii.eqb c "\" then
        match p' with
        | [] => fun _ => false
        | d :: p'' =>
            fun t =>
              match t with
              | [] => false
              | x :: t' => eqb_ci d x && pg_like_ci p'' t'
              end
        end
      else
        fun t =>
          match t with
          | [] => false
          | x :: t' => eqb_ci c x && pg_like_ci p' t'
          end
  end.

Definition pg_ilike (text pattern : string) : bool :=
  pg_like_ci (list_ascii_of_string pattern) (list_ascii_of_string text).

(** The rewriting PostgREST applies to the pattern of [.ilike]. *)
Definition star_to_percent (c : ascii) : ascii :=
  if Ascii.eqb c "*" then "%"%char else c.

(** Case-insensitive equality of two strings, the lookup the data model
    describes; used only to compare [ilike] with it. *)
Fixpoint eq_ci_list (a b : list ascii) : bool :=
  match a, b with
  | [], [] => true
  | x :: a', y :: b' => eqb_ci x y && eq_ci_list a' b'
  | _, _ => false
  end.

Definition eq_ci (a b : string) : bool :=
  eq_ci_list (list_ascii_of_string a) (list_ascii_of_string b).

(** The characters [ilike] does not read literally. *)
Definition is_wildcard (c : ascii) : bool :=
  Ascii.eqb c "%" || Ascii.eqb c "*" || Ascii.eqb c "_" || Ascii.eqb c "\".

(** ** Data model *)

(** A row of the [users] table, as far as the handler reads it. *)
Record User := {
  u_id : string;
  u_email : string
}.

(** An ISO-8601 timestamp, [new Date(ms).toISOString()], kept as the
    milliseconds it denotes. *)
Record IsoTime := Iso { ms : Z }.

(** A row of the [subscriptions] table. *)
Record SubRow := {
  user_id : string;
  stripe_customer_id : string;
  stripe_subscription_id : string;
  status : string;
  price_id : string;
  current_period_end : IsoTime;
  cancel_at_period_end : bool;
  created_at : IsoTime;
  updated_at : IsoTime
}.

(** [Stripe.Subscription], as far as the handler reads it;
    [sub_items] lists [items.data[i].price.id], and
    [sub_current_period_end] is the whole number of seconds the
    provider's type declares. *)
Record StripeSubscription := {
  sub_id : string;
  sub_customer : string;
  sub_status : string;
  sub_current_period_end : Z;
  sub_cancel_at_period_end : bool;
  sub_items : list string
}.

(** [Stripe.Checkout.Session], as far as the handler reads it.
    [customer_details_email] is [customer_details?.email]: the outer
    [None] is a null [customer_details]. *)
Record Session := {
  session_id : string;
  client_reference_id : option string;
  customer : option string;
  subscription : option string;
  customer_details_email : option (option string);
  customer_email : option string
}.

Record StoredSessionData := {
  userId : string;
  customerId : string
}.

Record StoredSubscriptionData := {
  stored_id : string;
  stored_customer : string
}.

(** The event built by [stripe.webhooks.constructEvent], by [event.type]. *)
Inductive Event :=
| checkout_session_completed (session : Session)
| customer_subscription_created (sub : StripeSubscription)
| customer_subscription_updated (sub : StripeSubscription)
| customer_subscription_pending_update_applied (sub : StripeSubscription)
| customer_subscription_pending_update_expired (sub : StripeSubscription)
| customer_subscription_trial_will_end (sub : StripeSubscription)
| customer_subscription_deleted (sub : StripeSubscription)
| other_event (type : string).

(** A request: [None] when [constructEvent] rejects the signature. *)
Definition Request := option Event.

(** The JSON bodies the handler answers with. *)
Inductive Body :=
| Received
| ReceivedWarning (warning : string)
| Blocked (message : string)
| ErrorBody (error : string)
| HandlerFailed (message : string).

Record Response := {
  resp_status : Z;
  resp_body : Body
}.

(** [NextResponse.json(body)] and [NextResponse.json(body, { status })]. *)
Definition json (b : Body) : Response := {| resp_status := 200; resp_body := b |}.
Definition json_status (b : Body) (st : Z) : Response :=
  {| resp_status := st; resp_body := b |}.

(** ** The world the handler runs in *)

(** What is kept between requests: the two tables, the two module-level
    maps, and the cancellations the handler has asked the provider for. *)
Record World := {
  users : list User;
  subscriptions : list SubRow;
  checkoutSessionMap : gmap string StoredSessionData;
  pendingSubscriptions : gmap string StoredSubscriptionData;
  cancel_requests : list string
}.

Definition with_subscriptions (rows : list SubRow) (w : World) : World :=
  {| users := users w;
     subscriptions := rows;
     checkoutSessionMap := checkoutSessionMap w;
     pendingSubscriptions := pendingSubscriptions w;
     cancel_requests := cancel_requests w |}.

Definition with_checkoutSessionMap (m : gmap string StoredSessionData)
    (w : World) : World :=
  {| users := users w;
     subscriptions := subscriptions w;
     checkoutSessionMap := m;
     pendingSubscriptions := pendingSubscriptions w;
     cancel_requests := cancel_requests w |}.

Definition with_pendingSubscriptions (m : gmap string StoredSubscriptionData)
    (w : World) : World :=
  {| users := users w;
     subscriptions := subscriptions w;
     checkoutSessionMap := checkoutSessionMap w;
     pendingSubscriptions := m;
     cancel_requests := cancel_requests w |}.

Definition with_cancel_requests (l : list string) (w : World) : World :=
  {| users := users w;
     subscriptions := subscriptions w;
     checkoutSessionMap := checkoutSessionMap w;
     pendingSubscriptions := pendingSubscriptions w;
     cancel_requests := l |}.

(** The places where the handler awaits the store or the provider, by the
    line of the call. *)
Inductive Site :=
| L39_select_existing
| L54_select_user_by_email
| L187_select_user_by_id
| L228_stripe_cancel
| L256_stripe_retrieve
| L308_update
| L324_update
| L383_select_user_by_id
| L394_stripe_retrieve
| L397_select_subscription
| L410_update
| L442_insert
| L452_select_subscription.

(** What one request finds outside the process: which awaited calls fail
    (a store call then answers with an error and changes nothing, a
    provider call throws), the instant [new Date()] reads, and the
    provider's own record of the subscriptions. *)
Record Env := {
  fault : Site -> bool;
  now : Z;
  provider : list StripeSubscription
}.

(** The store client answers [{ data, error }]; it does not throw. *)
Inductive PgError := PGRST116 | PgFailure.

Record PgResult (A : Type) := {
  data : option A;
  error : option PgError
}.
Arguments data {A} _.
Arguments error {A} _.

(** What [throw] carries. *)
Inductive Exn :=
| JsError (message : string)
| PgExn (e : PgError)
| StripeExn (message : string).

Definition exn_message (e : Exn) : string :=
  match e with
  | JsError m => m
  | PgExn PGRST116 => "JSON object requested, multiple (or no) rows returned"
  | PgExn PgFailure => "store failure"
  | StripeExn m => m
  end.

(** ** A state-and-exception monad for the [async] functions *)

Inductive Res (A : Type) :=
| Val (a : A)
| Throw (e : Exn).
Arguments Val {A} a.
Arguments Throw {A} e.

Definition M (A : Type) : Type := World -> World * Res A.

Definition ret {A} (a : A) : M A := fun w => (w, Val a).

Definition bind {A B} (m : M A) (k : A -> M B) : M B :=
  fun w =>
    match m w with
    | (w', Val a) => k a w'
    | (w', Throw e) => (w', Throw e)
    end.

Definition throw {A} (e : Exn) : M A := fun w => (w, Throw e).

(** [try { body } catch (e) { handler }] *)
Definition try_catch {A} (body : M A) (handler : Exn -> M A) : M A :=
  fun w =>
    match body w with
    | (w', Val a) => (w', Val a)
    | (w', Throw e) => handler e w'
    end.

Definition gets {A} (f : World -> A) : M A := fun w => (w, Val (f w)).
Definition modify (f : World -> World) : M unit := fun w => (f w, Val tt).

Declare Scope js_scope.
Delimit Scope js_scope with js.
Notation "'let*' x ':=' m 'in' k" := (bind m (fun x => k))
  (at level 10, x name, m at level 100, k at level 200) : js_scope.
Notation "m ';;' k" := (bind m (fun _ => k))
  (at level 100, k at level 200, right associativity) : js_scope.
Local Open Scope js_scope.

(** ** The store and the provider, as the handler calls them *)

Definition pg_failed {A} : PgResult A :=
  {| data := None; error := Some PgFailure |}.

(** [.single()]: the one row of the result, or the error [PGRST116] when
    the result has no row or more than one. *)
Definition single {A} (rows : list A) : PgResult A :=
  match rows with
  | [r] => {| data := Some r; error := None |}
  | _ => {| data := None; error := Some PGRST116 |}
  end.

(** [supabaseAdmin.from('users').select(..).<filter>.single()] *)
Definition users_select_single (E : Env) (s : Site) (p : User -> bool)
    : M (PgResult User) :=
  gets (fun w =>
    if fault E s then pg_failed else single (List.filter p (users w))).

(** [supabaseAdmin.from('subscriptions').select('*').<filter>.single()] *)
Definition subscriptions_select_single (E : Env) (s : Site)
    (p : SubRow -> bool) : M (PgResult SubRow) :=
  gets (fun w =>
    if fault E s then pg_failed
    else single (List.filter p (subscriptions w))).

(** The table after an update of the rows with identifier [id]. *)
Definition update_rows (f : SubRow -> SubRow) (id : string)
    (rows : list SubRow) : list SubRow :=
  map (fun r => if String.eqb (stripe_subscription_id r) id then f r else r)
      rows.

(** [supabaseAdmin.from('subscriptions').update(..)
      .eq('stripe_subscription_id', id)] *)
Definition subscriptions_update (E : Env) (s : Site)
    (f : SubRow -> SubRow) (id : string) : M (option PgError) :=
  fun w =>
    if fault E s then (w, Val (Some PgFailure))
    else
      (with_subscriptions (update_rows f id (subscriptions w)) w, Val None).

(** [supabaseAdmin.from('subscriptions').insert(row)] *)
Definition subscriptions_insert (E : Env) (s : Site) (row : SubRow)
    : M (option PgError) :=
  fun w =>
    if fault E s then (w, Val (Some PgFailure))
    else (with_subscriptions (subscriptions w ++ [row]) w, Val None).

(** The provider's record of subscription [id], if it has one. *)
Definition provider_find (E : Env) (id : string) : option StripeSubscription :=
  List.find (fun x => String.eqb (sub_id x) id) (provider E).

(** [stripe.subscriptions.retrieve(id)] *)
Definition stripe_subscriptions_retrieve (E : Env) (s : Site) (id : string)
    : M StripeSubscription :=
  if fault E s then throw (StripeExn "provider request failed")
  else
    match provider_find E id with
    | Some x => ret x
    | None => throw (StripeExn "No such subscription")
    end.

(** [stripe.subscriptions.cancel(id)]: the request is on record whether
    or not the provider honours it. *)
Definition stripe_subscriptions_cancel (E : Env) (s : Site) (id : string)
    : M unit :=
  modify (fun w => with_cancel_requests (cancel_requests w ++ [id]) w);;
  if fault E s then throw (StripeExn "provider request failed")
  else
    match provider_find E id with
    | Some _ => ret tt
    | None => throw (StripeExn "No such subscription")
    end.

(** ** The functions of [route.ts] *)

Definition is_active_or_trialing (st : string) : bool :=
  String.eqb st "active" || String.eqb st "trialing".

(** The filter of lines 42-43. *)
Definition existing_filter (customerId : string) (r : SubRow) : bool :=
  String.eqb (stripe_customer_id r) customerId
  && is_active_or_trialing (status r).

(** Lines 38-47. *)
Definition checkExistingSubscription (E : Env) (customerId : string)
    : M bool :=
  let* r := subscriptions_select_single E L39_select_existing
              (existing_filter customerId) in
  ret (match data r with Some _ => true | None => false end).

(** Lines 50-71. *)
Definition findUserIdByEmail (E : Env) (email : string)
    : M (option string) :=
  try_catch
    (let* r := users_select_single E L54_select_user_by_email
                 (fun u => ilike (u_email u) email) in
     match error r, data r with
     | None, Some u => ret (Some (u_id u))
     | _, _ => ret None
     end)
    (fun _ => ret None).

(** What [new Date(seconds * 1000).toISOString()] gives when it gives
    a string. *)
Definition iso_of_seconds (seconds : Z) : IsoTime := Iso (seconds * 1000).

(** The time values [Date] holds: 8.64e15 milliseconds to either side of
    the epoch. *)
Definition date_in_range (ms : Z) : bool :=
  Z.leb (-8640000000000000)%Z ms && Z.leb ms 8640000000000000%Z.

(** [new Date(ms).toISOString()]: a [RangeError] outside that range. *)
Definition toISOString (ms : Z) : M IsoTime :=
  if date_in_range ms then ret (Iso ms)
  else throw (JsError "Invalid time value").

(** [stripeSubscription.items.data[0]?.price.id || 'unknown'] *)
Definition first_price_or_unknown (items : list string) : string :=
  match items with
  | p :: _ => if String.eqb p "" then "unknown" else p
  | [] => "unknown"
  end.

(** The object literal of lines 412-417, with the period end as line 414
    has converted it. *)
Definition refresh_fields_at (E : Env) (s : StripeSubscription)
    (periodEnd : IsoTime) (r : SubRow) : SubRow :=
  {| user_id := user_id r;
     stripe_customer_id := stripe_customer_id r;
     stripe_subscription_id := stripe_subscription_id r;
     status := sub_status s;
     price_id := price_id r;
     current_period_end := periodEnd;
     cancel_at_period_end := sub_cancel_at_period_end s;
     created_at := created_at r;
     updated_at := Iso (now E) |}.

(** The same, for a period end that converts. *)
Definition refresh_fields (E : Env) (s : StripeSubscription) (r : SubRow)
    : SubRow :=
  refresh_fields_at E s (iso_of_seconds (sub_current_period_end s)) r.

(** The object literal of lines 428-438, with the period end as line 434
    has converted it. *)
Definition newSubscription_at (E : Env) (s : StripeSubscription)
    (periodEnd : IsoTime) (subscriptionId userId customerId : string)
    : SubRow :=
  {| user_id := userId;
     stripe_customer_id := customerId;
     stripe_subscription_id := subscriptionId;
     status := sub_status s;
     price_id := first_price_or_unknown (sub_items s);
     current_period_end := periodEnd;
     cancel_at_period_end := sub_cancel_at_period_end s;
     created_at := Iso (now E);
     updated_at := Iso (now E) |}.

(** The same, for a period end that converts. *)
Definition newSubscription (E : Env) (s : StripeSubscription)
    (subscriptionId userId customerId : string) : SubRow :=
  newSubscription_at E s (iso_of_seconds (sub_current_period_end s))
    subscriptionId userId customerId.

Definition by_subscription_id (id : string) (r : SubRow) : bool :=
  String.eqb (stripe_subscription_id r) id.

(** Lines 365-470.  The function answers the row it found, or what the
    read-back after the insert gave ([data || verifyData], where the
    insert itself answers no data). *)
Definition createSubscription (E : Env)
    (subscriptionId userId customerId : string) : M (option SubRow) :=
  try_catch
    (if String.eqb subscriptionId "" || String.eqb userId ""
        || String.eqb customerId ""
     then throw (JsError "Missing required parameters for createSubscription")
     else
       let* u := users_select_single E L383_select_user_by_id
                   (fun u => String.eqb (u_id u) userId) in
       match error u, data u with
       | None, Some _ =>
           let* stripeSubscription :=
             stripe_subscriptions_retrieve E L394_stripe_retrieve
               subscriptionId in
           let* ex := subscriptions_select_single E L397_select_subscription
                        (by_subscription_id subscriptionId) in
           match error ex with
           | Some PgFailure => throw (PgExn PgFailure)
           | _ =>
               match data ex with
               | Some existingData =>
                   let* periodEnd :=
                     toISOString
                       (sub_current_period_end stripeSubscription * 1000) in
                   let* updateError :=
                     subscriptions_update E L410_update
                       (refresh_fields_at E stripeSubscription periodEnd)
                       subscriptionId in
                   match updateError with
                   | Some e => throw (PgExn e)
                   | None => ret (Some existingData)
                   end
               | None =>
                   let* periodEnd :=
                     toISOString
                       (sub_current_period_end stripeSubscription * 1000) in
                   let* insertError :=
                     subscriptions_insert E L442_insert
                       (newSubscription_at E stripeSubscription periodEnd
                          subscriptionId userId customerId) in
                   match insertError with
                   | Some e => throw (PgExn e)
                   | None =>
                       let* v := subscriptions_select_single E
                                   L452_select_subscription
                                   (by_subscription_id subscriptionId) in
                       ret (data v)
                   end
               end
           end
       | _, _ =>
           throw (JsError ("User ID " ++ userId ++ " not found in database"))
       end)
    (fun error => throw error).

(** ** The handler *)

(** [session.customer_details?.email || session.customer_email] *)
Definition session_email (session : Session) : option string :=
  js_or (match customer_details_email session with
         | Some e => e
         | None => None
         end)
        (customer_email session).

(** [supabaseAdmin.from('users').select('id, email').limit(10)], read for
    the log only (line 171). *)
Definition users_select_limit (n : nat) : M (list User) :=
  gets (fun w => firstn n (users w)).

(** Lines 151-214 of the [checkout.session.completed] case: the user the
    session belongs to, or the response the handler returns at once. *)
Definition resolveUserId (E : Env) (session : Session)
    : M (Response + string) :=
  let userId := as_string (js_or (client_reference_id session) (Some "")) in
  let email := session_email session in
  let* first :=
    (if String.eqb userId "" || negb (uuid_regex_match userId) then
       if truthy email then
         let* foundUserId := findUserIdByEmail E (as_string email) in
         if truthy foundUserId then ret (inr (as_string foundUserId))
         else
           let* allUsers := users_select_limit 10 in
           ret (inl (json_status (ErrorBody "User not found") 400))
       else ret (inl (json_status (ErrorBody "No email to identify user") 400))
     else ret (inr userId)) in
  match first with
  | inl response => ret (inl response)
  | inr userId =>
      try_catch
        (let* userExists := users_select_single E L187_select_user_by_id
                              (fun u => String.eqb (u_id u) userId) in
         match data userExists with
         | Some _ => ret (inr userId)
         | None =>
             if truthy email then
               let* foundUserId := findUserIdByEmail E (as_string email) in
               if truthy foundUserId then ret (inr (as_string foundUserId))
               else ret (inl (json_status (ErrorBody "User ID not valid") 400))
             else
               ret (inl (json_status
                           (ErrorBody "User ID not valid and no email to retry")
                           400))
         end)
        (fun _ => ret (inr userId))
  end.

(** Lines 216-275: the duplicate check and the upsert, inside the [try]
    whose [catch] acknowledges the event.  [None] means the [switch] is
    left by [break]. *)
Definition reconcileCheckout (E : Env) (session : Session) (userId : string)
    : M (option Response) :=
  try_catch
    (let* hasActiveSubscription :=
       checkExistingSubscription E (as_string (customer session)) in
     if hasActiveSubscription then
       (if truthy (subscription session)
        then stripe_subscriptions_cancel E L228_stripe_cancel
               (as_string (subscription session))
        else ret tt);;
       ret (Some (json (Blocked "Customer already has an active subscription")))
     else
       try_catch
         (createSubscription E (as_string (subscription session)) userId
            (as_string (customer session));;
          ret tt)
         (fun subError =>
            try_catch
              (stripe_subscriptions_retrieve E L256_stripe_retrieve
                 (as_string (subscription session));;
               ret tt)
              (fun _ => ret tt);;
            throw subError);;
       ret None)
    (fun _ =>
       ret (Some (json (ReceivedWarning "Error processing checkout session")))).

(** The [checkout.session.completed] case, lines 128-277. *)
Definition handleCheckoutSessionCompleted (E : Env) (session : Session)
    : M (option Response) :=
  if negb (truthy (subscription session)) then
    ret (Some (json_status (ErrorBody "Missing subscription ID") 400))
  else if negb (truthy (customer session)) then
    ret (Some (json_status (ErrorBody "Missing customer ID") 400))
  else
    let* who := resolveUserId E session in
    match who with
    | inl response => ret (Some response)
    | inr userId => reconcileCheckout E session userId
    end.

(** What the [else] branch of lines 292-298 stores. *)
Definition stash (sub : StripeSubscription) : StoredSubscriptionData :=
  {| stored_id := sub_id sub; stored_customer := sub_customer sub |}.

(** The [customer.subscription.created] case, lines 279-300. *)
Definition handleSubscriptionCreated (E : Env) (sub : StripeSubscription)
    : M (option Response) :=
  let* sessionData := gets (fun w => checkoutSessionMap w !! sub_id sub) in
  match sessionData with
  | Some sd =>
      createSubscription E (sub_id sub) (userId sd) (customerId sd);;
      modify (fun w =>
        with_checkoutSessionMap (delete (sub_id sub) (checkoutSessionMap w)) w);;
      ret None
  | None =>
      modify (fun w =>
        with_pendingSubscriptions
          (<[sub_id sub := stash sub]> (pendingSubscriptions w)) w);;
      ret None
  end.

(** The object literal of lines 310-315, with the period end as line 313
    has converted it. *)
Definition updated_fields_at (E : Env) (sub : StripeSubscription)
    (periodEnd : IsoTime) (r : SubRow) : SubRow :=
  {| user_id := user_id r;
     stripe_customer_id := stripe_customer_id r;
     stripe_subscription_id := stripe_subscription_id r;
     status := sub_status sub;
     price_id := price_id r;
     current_period_end := periodEnd;
     cancel_at_period_end := sub_cancel_at_period_end sub;
     created_at := created_at r;
     updated_at := Iso (now E) |}.

(** The same, for a period end that converts. *)
Definition updated_fields (E : Env) (sub : StripeSubscription) (r : SubRow)
    : SubRow :=
  updated_fields_at E sub (iso_of_seconds (sub_current_period_end sub)) r.

(** The four cases that share lines 302-319: the literal is built, and
    its period end converted, before the update is sent. *)
Definition handleSubscriptionUpdated (E : Env) (sub : StripeSubscription)
    : M (option Response) :=
  let* periodEnd := toISOString (sub_current_period_end sub * 1000) in
  subscriptions_update E L308_update (updated_fields_at E sub periodEnd)
    (sub_id sub);;
  ret None.

(** The object literal of lines 327-330. *)
Definition deleted_fields (E : Env) (sub : StripeSubscription) (r : SubRow)
    : SubRow :=
  {| user_id := user_id r;
     stripe_customer_id := stripe_customer_id r;
     stripe_subscription_id := stripe_subscription_id r;
     status := sub_status sub;
     price_id := price_id r;
     current_period_end := Iso (now E);
     cancel_at_period_end := false;
     created_at := created_at r;
     updated_at := Iso (now E) |}.

(** The [customer.subscription.deleted] case, lines 321-335. *)
Definition handleSubscriptionDeleted (E : Env) (sub : StripeSubscription)
    : M (option Response) :=
  subscriptions_update E L324_update (deleted_fields E sub) (sub_id sub);;
  ret None.

(** The [switch] of lines 127-352. *)
Definition dispatch (E : Env) (event : Event) : M (option Response) :=
  match event with
  | checkout_session_completed session =>
      handleCheckoutSessionCompleted E session
  | customer_subscription_created sub => handleSubscriptionCreated E sub
  | customer_subscription_updated sub
  | customer_subscription_pending_update_applied sub
  | customer_subscription_pending_update_expired sub
  | customer_subscription_trial_will_end sub =>
      handleSubscriptionUpdated E sub
  | customer_subscription_deleted sub => handleSubscriptionDeleted E sub
  | other_event _ => ret None
  end.

(** Lines 105-363: the function handed to [withCors].  The wrapper is
    defined in [utils/cors]; the embedding is of the wrapped function. *)
Definition POST (E : Env) (request : Request) (w : World)
    : World * Response :=
  match request with
  | None =>
      (w, json_status (ErrorBody "Webhook signature verification failed") 400)
  | Some event =>
      match dispatch E event w with
      | (w', Val (Some response)) => (w', response)
      | (w', Val None) => (w', json Received)
      | (w', Throw error) =>
          (w', json_status (HandlerFailed (exn_message error)) 400)
      end
  end.

(** The handler on a sequence of deliveries, each with what it finds
    outside the process; the responses come back in order. *)
Fixpoint deliver (rs : list (Env * Request)) (w : World)
    : World * list Response :=
  match rs with
  | [] => (w, [])
  | (E, request) :: rest =>
      let (w1, r) := POST E request w in
      let (w2, l) := deliver rest w1 in
      (w2, r :: l)
  end.

(** The process at module load: both maps empty. *)
Definition fresh (us : list User) (rows : list SubRow) : World :=
  {| users := us;
     subscriptions := rows;
     checkoutSessionMap := ∅;
     pendingSubscriptions := ∅;
     cancel_requests := [] |}.

(** The rows of the table with a given subscription identifier. *)
Definition rows_of (id : string) (w : World) : list SubRow :=
  List.filter (by_subscription_id id) (subscriptions w).

(** The data model's invariant: no two rows share a subscription
    identifier. *)
Definition unique_ids (w : World) : Prop :=
  List.NoDup (map stripe_subscription_id (subscriptions w)).

(** A request none of whose awaited calls fails. *)
Definition no_fault : Site -> bool := fun _ => false.

(** ** Vocabulary of the statements *)

(** How many users carry a given identifier. *)
Definition user_count (uid : string) (w : World) : nat :=
  length (List.filter (fun u => String.eqb (u_id u) uid) (users w)).

(** How many rows the duplicate check of lines 39-44 selects. *)
Definition existing_count (customerId : string) (w : World) : nat :=
  length (List.filter (existing_filter customerId) (subscriptions w)).

(** Every awaited call of the request succeeds. *)
Definition store_ok (E : Env) : Prop := forall s, fault E s = false.

(** The fields an update leaves alone. *)
Definition same_identity (old new : SubRow) : Prop :=
  user_id new = user_id old /\
  stripe_customer_id new = stripe_customer_id old /\
  stripe_subscription_id new = stripe_subscription_id old /\
  price_id new = price_id old /\
  created_at new = created_at old.

(** The four fields [createSubscription] refreshes from the provider. *)
Definition refreshed_from (E : Env) (s : StripeSubscription) (new : SubRow)
    : Prop :=
  status new = sub_status s /\
  current_period_end new = Iso (sub_current_period_end s * 1000) /\
  cancel_at_period_end new = sub_cancel_at_period_end s /\
  updated_at new = Iso (now E).

(** A row with every field filled from the arguments, the provider's
    record and the clock: the price is that of the first line item, or
    the word [unknown] when there is none or it is empty. *)
Definition populated_from (E : Env) (s : StripeSubscription)
    (subscriptionId userId customerId : string) (row : SubRow) : Prop :=
  user_id row = userId /\
  stripe_customer_id row = customerId /\
  stripe_subscription_id row = subscriptionId /\
  status row = sub_status s /\
  price_id row
  = match sub_items s with
    | [] => "unknown"
    | p :: _ => if String.eqb p "" then "unknown" else p
    end /\
  current_period_end row = Iso (sub_current_period_end s * 1000) /\
  cancel_at_period_end row = sub_cancel_at_period_end s /\
  created_at row = Iso (now E) /\
  updated_at row = Iso (now E).

(** What [customer.subscription.deleted] leaves in a matching row. *)
Definition marked_deleted (E : Env) (sub : StripeSubscription) (new : SubRow)
    : Prop :=
  status new = sub_status sub /\
  cancel_at_period_end new = false /\
  current_period_end new = Iso (now E) /\
  updated_at new = Iso (now E).

(** What [createSubscription] needs in order not to throw. *)
Definition upsert_ready (E : Env) (subscriptionId userId customerId : string)
    (w : World) : Prop :=
  subscriptionId <> "" /\ userId <> "" /\ customerId <> "" /\
  user_count userId w = 1%nat /\
  (exists s,
     provider_find E subscriptionId = Some s /\
     date_in_range (sub_current_period_end s * 1000) = true) /\
  store_ok E.

(** [m] moves every world to one related to it by [R]. *)
Definition keeps (R : World -> World -> Prop) {A} (m : M A) : Prop :=
  forall w, R w (fst (m w)).

(** The two relations the development follows through a request. *)
Definition same_users (w w' : World) : Prop := users w' = users w.

Definition no_new_association (w w' : World) : Prop :=
  forall k, checkoutSessionMap w !! k = None ->
            checkoutSessionMap w' !! k = None.

(** The session carries a well-shaped identifier of exactly one user. *)
Definition names_user (session : Session) (uid : string) (w : World) : Prop :=
  client_reference_id session = Some uid /\
  uuid_regex_match uid = true /\
  user_count uid w = 1%nat.

(** The session passes the validation of lines 141-149 with subscription
    [sid] and customer [cid]. *)
Definition well_formed_checkout (session : Session) (sid cid : string)
    : Prop :=
  subscription session = Some sid /\ customer session = Some cid /\
  sid <> "" /\ cid <> "".

(** The invariant is kept from [w] to [w']. *)
Definition keeps_unique_ids (w w' : World) : Prop :=
  unique_ids w -> unique_ids w'.

(** The three answers of the reconciliation block. *)
Definition blocked : Response :=
  json (Blocked "Customer already has an active subscription").

Definition acknowledged_with_warning : Response :=
  json (ReceivedWarning "Error processing checkout session").

Definition acknowledged : Response := json Received.

(** The four rejections of the identity block, lines 177-207. *)
Definition identity_rejection (r : Response) : Prop :=
  r = json_status (ErrorBody "User not found") 400 \/
  r = json_status (ErrorBody "No email to identify user") 400 \/
  r = json_status (ErrorBody "User ID not valid") 400 \/
  r = json_status (ErrorBody "User ID not valid and no email to retry") 400.

(** The four event types that share the update of lines 308-316. *)
Definition is_update_event (event : Event) (sub : StripeSubscription) : Prop :=
  event = customer_subscription_updated sub \/
  event = customer_subscription_pending_update_applied sub \/
  event = customer_subscription_pending_update_expired sub \/
  event = customer_subscription_trial_will_end sub.

(** ** Sample data for the concrete runs *)

Module Sample.

Definition U1 : string := "123e4567-e89b-12d3-a456-426614174000".

Definition alice : User := {| u_id := U1; u_email := "abc@x.io" |}.

(** The provider's view of a subscription of customer [cus_1]. *)
Definition psub (id st : string) : StripeSubscription :=
  {| sub_id := id;
     sub_customer := "cus_1";
     sub_status := st;
     sub_current_period_end := 1700000000;
     sub_cancel_at_period_end := false;
     sub_items := ["price_1"] |}.

(** A request at instant [t] in which every awaited call succeeds. *)
Definition env (t : Z) (subs : list StripeSubscription) : Env :=
  {| fault := no_fault; now := t; provider := subs |}.


Definition E0 : Env := env 1699990000000 [psub "sub_1" "active"].
Definition E1 : Env := env 1699990060000 [psub "sub_1" "past_due"].

(** A checkout session of [cus_1] for subscription [id] that names the
    user by [client_reference_id]. *)
Definition checkout (id : string) : Session :=
  {| session_id := "cs_1";
     client_reference_id := Some U1;
     customer := Some "cus_1";
     subscription := Some id;
     customer_details_email := None;
     customer_email := None |}.

(** A checkout session that names the user by email only. *)
Definition checkout_by_email (email : string) : Session :=
  {| session_id := "cs_2";
     client_reference_id := None;
     customer := Some "cus_1";
     subscription := Some "sub_1";
     customer_details_email := Some (Some email);
     customer_email := None |}.

(** A stored row of [cus_1]. *)
Definition row (id st : string) : SubRow :=
  {| user_id := U1;
     stripe_customer_id := "cus_1";
     stripe_subscription_id := id;
     status := st;
     price_id := "price_1";
     current_period_end := Iso 1690000000000;
     cancel_at_period_end := true;
     created_at := Iso 1680000000000;
     updated_at := Iso 1680000000000 |}.

(** A table with a row still [incomplete] and an [active] one. *)
Definition two_rows : World :=
  fresh [alice] [row "sub_1" "incomplete"; row "sub_2" "active"].

End Sample.

(** ** Vocabulary of the further properties *)

(** The table of [w'] keeps every row of [w], in place and with the same
    user, customer, subscription, price and creation time, and may hold
    further rows after them. *)
Definition grows_from (w w' : World) : Prop :=
  exists kept added,
    subscriptions w' = kept ++ added /\
    Forall2 same_identity (subscriptions w) kept.

(** A row that belongs to exactly one stored user and has no empty
    identifier or price. *)
Definition sound_row (w : World) (r : SubRow) : Prop :=
  user_count (user_id r) w = 1%nat /\
  user_id r <> "" /\
  stripe_customer_id r <> "" /\
  stripe_subscription_id r <> "" /\
  price_id r <> "".

Definition sound_rows (w : World) : Prop :=
  Forall (sound_row w) (subscriptions w).

(** The users are the same and sound rows stay sound. *)
Definition keeps_sound_rows (w w' : World) : Prop :=
  users w' = users w /\ (sound_rows w -> sound_rows w').

(** What the four updating events leave in a matching row. *)
Definition marked_updated (E : Env) (sub : StripeSubscription) (new : SubRow)
    : Prop :=
  status new = sub_status sub /\
  cancel_at_period_end new = sub_cancel_at_period_end sub /\
  current_period_end new = Iso (sub_current_period_end sub * 1000) /\
  updated_at new = Iso (now E).

(** The five event types that overwrite the status of stored rows. *)
Definition is_status_event (event : Event) (sub : StripeSubscription) : Prop :=
  is_update_event event sub \/ event = customer_subscription_deleted sub.

(** The store call such an event awaits. *)
Definition status_site (event : Event) : Site :=
  match event with
  | customer_subscription_deleted _ => L324_update
  | _ => L308_update
  end.

(** The fields such an event writes into a matching row. *)
Definition status_fields (E : Env) (event : Event) (sub : StripeSubscription)
    : SubRow -> SubRow :=
  match event with
  | customer_subscription_deleted _ => deleted_fields E sub
  | _ => updated_fields E sub
  end.

(** Two sessions that differ at most in their email fields. *)
Definition same_but_email (a b : Session) : Prop :=
  client_reference_id a = client_reference_id b /\
  customer a = customer b /\
  subscription a = subscription b.

(** The shape the expression of line 155 describes: five runs of 8, 4,
    4, 4 and 12 hexadecimal digits of either case, with a dash between
    neighbours and nothing before or after. *)
Definition all_hex (g : list ascii) : Prop := forallb is_hex g = true.

Definition uuid_shaped (s : string) : Prop :=
  exists g1 g2 g3 g4 g5 : list ascii,
    list_ascii_of_string s
    = g1 ++ "-"%char :: g2 ++ "-"%char :: g3 ++ "-"%char :: g4
         ++ "-"%char :: g5 /\
    (length g1 = 8 /\ length g2 = 4 /\ length g3 = 4 /\ length g4 = 4 /\
     length g5 = 12)%nat /\
    all_hex g1 /\ all_hex g2 /\ all_hex g3 /\ all_hex g4 /\ all_hex g5.

(** An email without the quoting character of [ILIKE]. *)
Definition no_backslash (s : string) : Prop :=
  forallb (fun c => negb (Ascii.eqb c "\")) (list_ascii_of_string s) = true.

(** An email without any character [ILIKE] reads as a pattern. *)
Definition no_wildcard (s : string) : Prop :=
  forallb (fun c => negb (is_wildcard c)) (list_ascii_of_string s) = true.

(** A string without the character [*], the one PostgREST rewrites. *)
Definition no_star (s : string) : Prop :=
  forallb (fun c => negb (Ascii.eqb c "*")) (list_ascii_of_string s) = true.

(** The answer of the outer [catch], lines 355-362. *)
Definition handler_failed (message : string) : Response :=
  json_status (HandlerFailed message) 400.

(** The period end of [s] is one [toISOString] converts. *)
Definition converts (s : StripeSubscription) : bool :=
  date_in_range (sub_current_period_end s * 1000).

(** A status event whose literal can be built: the deleted kind converts
    no period end. *)
Definition status_converts (event : Event) (sub : StripeSubscription) : bool :=
  match event with
  | customer_subscription_deleted _ => true
  | _ => converts sub
  end.

(** Further sample data. *)
Module Further.

(** A subscription of [cus_1] whose period end lies one millisecond's
    worth of seconds beyond what [Date] holds. *)
Definition far_sub (id st : string) : StripeSubscription :=
  {| sub_id := id;
     sub_customer := "cus_1";
     sub_status := st;
     sub_current_period_end := 8640000000001;
     sub_cancel_at_period_end := false;
     sub_items := ["price_1"] |}.


Definition U2 : string := "00000000-0000-4000-8000-000000000002".

Definition bob : User := {| u_id := U2; u_email := "bob@x.io" |}.

(** A checkout session of [cus_1] for [sub_1] with a reference and an
    email. *)
Definition checkout_with (ref email : string) : Session :=
  {| session_id := "cs_3";
     client_reference_id := Some ref;
     customer := Some "cus_1";
     subscription := Some "sub_1";
     customer_details_email := Some (Some email);
     customer_email := None |}.

End Further.

(** Two worlds that differ at most in [pendingSubscriptions]. *)
Definition same_outside_pending (a b : World) : Prop :=
  users a = users b /\
  subscriptions a = subscriptions b /\
  checkoutSessionMap a = checkoutSessionMap b /\
  cancel_requests a = cancel_requests b.

(** [m] neither reads nor writes [pendingSubscriptions]. *)
Definition blind {A} (m : M A) : Prop :=
  forall p w,
    m (with_pendingSubscriptions p w)
    = (with_pendingSubscriptions p (fst (m w)), snd (m w)).

(** ** The functions of [migrations/20250329_add_webhook_rpc_functions.sql]

    Each runs over the [users] table; a [SELECT] without [ORDER BY] is
    read in the order of the list. *)

(** [find_user_by_email]: [SELECT id INTO user_id FROM public.users
    WHERE email ILIKE user_email LIMIT 1; RETURN user_id], with [None]
    for [NULL].  The pattern reaches the database as it is written, so
    the matching is the database's own, where [*] is an ordinary
    character. *)
Definition find_user_by_email (us : list User) (user_email : string)
    : option string :=
  match List.filter (fun u => pg_ilike (u_email u) user_email) us with
  | u :: _ => Some (u_id u)
  | [] => None
  end.

(** [check_user_exists]: [SELECT EXISTS(SELECT 1 FROM public.users
    WHERE id = user_id)]. *)
Definition check_user_exists (us : list User) (user_id : string) : bool :=
  existsb (fun u => String.eqb (u_id u) user_id) us.

(** The subscription a request is about; [''] when it is about none. *)
Definition touched_id (request : Request) : string :=
  match request with
  | Some (checkout_session_completed session) =>
      as_string (subscription session)
  | Some (customer_subscription_created sub)
  | Some (customer_subscription_updated sub)
  | Some (customer_subscription_pending_update_applied sub)
  | Some (customer_subscription_pending_update_expired sub)
  | Some (customer_subscription_trial_will_end sub)
  | Some (customer_subscription_deleted sub) => sub_id sub
  | Some (other_event _) | None => ""
  end.

(** The table [rows'] is [rows] with changes only in rows of
    subscription [id] and with new rows, all of subscription [id], at its
    end. *)
Definition touches_only (id : string) (rows rows' : list SubRow) : Prop :=
  exists kept added,
    rows' = kept ++ added /\
    Forall2 (fun old new => stripe_subscription_id old <> id -> new = old)
      rows kept /\
    Forall (fun r => stripe_subscription_id r = id) added.

(** ** Checks of the helpers on concrete strings *)

Example uuid_ok :
  uuid_regex_match "123e4567-E89B-12d3-a456-426614174000" = true.
Proof. reflexivity. Qed.

Example uuid_short :
  uuid_regex_match "123e4567-e89b-12d3-a456-42661417400" = false.
Proof. reflexivity. Qed.

Example uuid_trailing :
  uuid_regex_match "123e4567-e89b-12d3-a456-426614174000x" = false.
Proof. reflexivity. Qed.

Example ilike_case : ilike "Ann@Example.com" "ann@example.COM" = true.
Proof. reflexivity. Qed.

Example ilike_underscore : ilike "abc@x.io" "a_c@x.io" = true.
Proof. reflexivity. Qed.

Example ilike_other : ilike "abc@x.io" "abd@x.io" = false.
Proof. reflexivity. Qed.

(** ** Lists of rows *)

Lemma with_subscriptions_same w : with_subscriptions (subscriptions w) w = w.
Proof. destruct w; reflexivity. Qed.

Lemma update_rows_length f id rows :
  length (update_rows f id rows) = length rows.
Proof. unfold update_rows. apply length_map. Qed.

Lemma update_rows_absent f id rows :
  List.filter (by_subscription_id id) rows = [] ->
  update_rows f id rows = rows.
Proof.
  unfold update_rows, by_subscription_id.
  induction rows as [| r rows IH]; simpl; [reflexivity |].
  destruct (String.eqb (stripe_subscription_id r) id); [discriminate |].
  intros H. rewrite IH by exact H. reflexivity.
Qed.

Lemma update_rows_pointwise f id rows :
  Forall2 (fun old new =>
             if by_subscription_id id old then new = f old else new = old)
          rows (update_rows f id rows).
Proof.
  unfold update_rows, by_subscription_id.
  induction rows as [| r rows IH]; simpl; constructor; [| exact IH].
  destruct (String.eqb (stripe_subscription_id r) id); reflexivity.
Qed.

Lemma update_rows_ids f id rows :
  (forall r, stripe_subscription_id (f r) = stripe_subscription_id r) ->
  map stripe_subscription_id (update_rows f id rows) =
  map stripe_subscription_id rows.
Proof.
  intros Hf. unfold update_rows.
  induction rows as [| r rows IH]; simpl; [reflexivity |].
  rewrite IH. destruct (String.eqb (stripe_subscription_id r) id);
    [rewrite Hf |]; reflexivity.
Qed.

Lemma filter_absent_not_in id rows :
  List.filter (by_subscription_id id) rows = [] ->
  ~ In id (map stripe_subscription_id rows).
Proof.
  unfold by_subscription_id.
  induction rows as [| r rows IH]; simpl; [tauto |].
  destruct (String.eqb (stripe_subscription_id r) id) eqn:Heq; [discriminate |].
  intros H [Hid | Hin]; [| exact (IH H Hin)].
  subst id. rewrite String.eqb_refl in Heq. discriminate.
Qed.

Lemma filter_not_in_absent id rows :
  ~ In id (map stripe_subscription_id rows) ->
  List.filter (by_subscription_id id) rows = [].
Proof.
  unfold by_subscription_id.
  induction rows as [| r rows IH]; simpl; [reflexivity |].
  intros H. destruct (String.eqb (stripe_subscription_id r) id) eqn:Heq.
  - apply String.eqb_eq in Heq. tauto.
  - apply IH. tauto.
Qed.

(** With distinct identifiers, a stored row is the only match of its own
    identifier. *)
Lemma filter_unique rows r :
  List.NoDup (map stripe_subscription_id rows) ->
  In r rows ->
  List.filter (by_subscription_id (stripe_subscription_id r)) rows = [r].
Proof.
  induction rows as [| x rows IH]; simpl; [tauto |].
  intros Hnd Hin. apply List.NoDup_cons_iff in Hnd as [Hx Hnd].
  unfold by_subscription_id at 1.
  destruct Hin as [-> | Hin].
  - rewrite String.eqb_refl. f_equal. apply filter_not_in_absent. exact Hx.
  - destruct (String.eqb (stripe_subscription_id x) (stripe_subscription_id r))
      eqn:Heq.
    + apply String.eqb_eq in Heq. exfalso. apply Hx. rewrite Heq.
      apply in_map. exact Hin.
    + apply IH; assumption.
Qed.

Lemma filter_app_last id rows r :
  List.filter (by_subscription_id id) rows = [] ->
  stripe_subscription_id r = id ->
  List.filter (by_subscription_id id) (rows ++ [r]) = [r].
Proof.
  intros Hnone Hid. rewrite List.filter_app, Hnone. simpl.
  unfold by_subscription_id. rewrite Hid, String.eqb_refl. reflexivity.
Qed.

(** ** The functions, evaluated *)

Lemma checkExistingSubscription_eval E customerId w :
  checkExistingSubscription E customerId w =
  (w, Val (negb (fault E L39_select_existing)
           && Nat.eqb (existing_count customerId w) 1)).
Proof.
  unfold checkExistingSubscription, bind, subscriptions_select_single, gets,
    ret, existing_count.
  destruct (fault E L39_select_existing); [reflexivity |].
  destruct (List.filter _ _) as [| r [| r' rs]]; reflexivity.
Qed.

Lemma createSubscription_eval E sid uid cid w :
  createSubscription E sid uid cid w =
  if String.eqb sid "" || String.eqb uid "" || String.eqb cid "" then
    (w, Throw (JsError "Missing required parameters for createSubscription"))
  else
    match (if fault E L383_select_user_by_id then None
           else data (single (List.filter
                                (fun u => String.eqb (u_id u) uid)
                                (users w)))) with
    | None =>
        (w, Throw (JsError ("User ID " ++ uid ++ " not found in database")))
    | Some _ =>
        if fault E L394_stripe_retrieve
        then (w, Throw (StripeExn "provider request failed"))
        else
          match provider_find E sid with
          | None => (w, Throw (StripeExn "No such subscription"))
          | Some s =>
              if fault E L397_select_subscription
              then (w, Throw (PgExn PgFailure))
              else if negb (date_in_range (sub_current_period_end s * 1000))
              then (w, Throw (JsError "Invalid time value"))
              else
                match data (single (rows_of sid w)) with
                | Some existing =>
                    if fault E L410_update then (w, Throw (PgExn PgFailure))
                    else
                      (with_subscriptions
                         (update_rows (refresh_fields E s) sid
                            (subscriptions w)) w,
                       Val (Some existing))
                | None =>
                    if fault E L442_insert then (w, Throw (PgExn PgFailure))
                    else
                      let w' :=
                        with_subscriptions
                          (subscriptions w
                           ++ [newSubscription E s sid uid cid]) w in
                      (w', Val (if fault E L452_select_subscription then None
                                else data (single (rows_of sid w'))))
                end
          end
    end.
Proof.
  unfold createSubscription, try_catch, bind, rows_of,
    users_select_single, subscriptions_select_single, gets,
    stripe_subscriptions_retrieve, subscriptions_insert, subscriptions_update,
    toISOString, refresh_fields, newSubscription, iso_of_seconds,
    throw, ret.
  destruct (String.eqb sid "" || String.eqb uid "" || String.eqb cid "");
    [reflexivity |].
  destruct (fault E L383_select_user_by_id); [reflexivity |].
  destruct (List.filter _ (users w)) as [| u [| u' us]]; try reflexivity.
  cbn [data error single pg_failed].
  destruct (fault E L394_stripe_retrieve); [reflexivity |].
  destruct (provider_find E sid) as [s |]; [| reflexivity].
  destruct (fault E L397_select_subscription); [reflexivity |].
  destruct (date_in_range (sub_current_period_end s * 1000));
    cbn [negb];
    (destruct (List.filter _ (subscriptions w)) as [| r [| r' rs]];
     cbn [data error single pg_failed]); try reflexivity.
  - destruct (fault E L442_insert); [reflexivity |].
    destruct (fault E L452_select_subscription); reflexivity.
  - destruct (fault E L410_update); reflexivity.
  - destruct (fault E L442_insert); [reflexivity |].
    destruct (fault E L452_select_subscription); reflexivity.
Qed.

Lemma handleSubscriptionUpdated_eval E sub w :
  handleSubscriptionUpdated E sub w =
  if date_in_range (sub_current_period_end sub * 1000) then
    (if fault E L308_update then w
     else with_subscriptions
            (update_rows (updated_fields E sub) (sub_id sub) (subscriptions w))
            w,
     Val None)
  else (w, Throw (JsError "Invalid time value")).
Proof.
  unfold handleSubscriptionUpdated, bind, subscriptions_update, toISOString,
    updated_fields, iso_of_seconds, throw, ret.
  destruct (date_in_range (sub_current_period_end sub * 1000));
    [| reflexivity].
  destruct (fault E L308_update); reflexivity.
Qed.

Lemma handleSubscriptionDeleted_eval E sub w :
  handleSubscriptionDeleted E sub w =
  (if fault E L324_update then w
   else with_subscriptions
          (update_rows (deleted_fields E sub) (sub_id sub) (subscriptions w)) w,
   Val None).
Proof.
  unfold handleSubscriptionDeleted, bind, subscriptions_update, ret.
  destruct (fault E L324_update); reflexivity.
Qed.

Lemma findUserIdByEmail_eval E email w :
  findUserIdByEmail E email w =
  (w, Val (if fault E L54_select_user_by_email then None
           else match List.filter (fun u => ilike (u_email u) email) (users w)
                with
                | [u] => Some (u_id u)
                | _ => None
                end)).
Proof.
  unfold findUserIdByEmail, try_catch, bind, users_select_single, gets, ret.
  destruct (fault E L54_select_user_by_email); [reflexivity |].
  destruct (List.filter _ _) as [| u [| u' us]]; reflexivity.
Qed.

(** The identity block only reads: it never throws, leaves the world as
    it found it, and answers a user identifier or one of its four
    rejections. *)
Lemma resolveUserId_cases E session w :
  exists who,
    resolveUserId E session w = (w, Val who) /\
    match who with
    | inl r => identity_rejection r
    | inr _ => True
    end.
Proof.
  unfold resolveUserId, bind, try_catch, identity_rejection.
  destruct (String.eqb _ "" || negb (uuid_regex_match _)).
  - destruct (truthy (session_email session)).
    + rewrite findUserIdByEmail_eval.
      destruct (truthy (if fault E L54_select_user_by_email then None else _)).
      * unfold ret, users_select_single, gets.
        destruct (data _).
        -- eexists; split; [reflexivity | exact I].
        -- rewrite findUserIdByEmail_eval.
           destruct (truthy _); eexists;
             (split; [reflexivity | simpl; auto 6]).
      * eexists; split; [reflexivity | simpl; auto 6].
    + eexists; split; [reflexivity | simpl; auto 6].
  - unfold ret, users_select_single, gets.
    destruct (data _).
    + eexists; split; [reflexivity | exact I].
    + destruct (truthy (session_email session)).
      * rewrite findUserIdByEmail_eval.
        destruct (truthy _); eexists;
          (split; [reflexivity | simpl; auto 6]).
      * eexists; split; [reflexivity | simpl; auto 6].
Qed.

Lemma reconcileCheckout_eval E session uid w :
  reconcileCheckout E session uid w =
  if negb (fault E L39_select_existing)
     && Nat.eqb (existing_count (as_string (customer session)) w) 1
  then
    if truthy (subscription session) then
      (with_cancel_requests
         (cancel_requests w ++ [as_string (subscription session)]) w,
       Val (Some
              (if fault E L228_stripe_cancel then acknowledged_with_warning
               else match provider_find E (as_string (subscription session))
                    with
                    | Some _ => blocked
                    | None => acknowledged_with_warning
                    end)))
    else (w, Val (Some blocked))
  else
    match createSubscription E (as_string (subscription session)) uid
            (as_string (customer session)) w with
    | (w', Val _) => (w', Val None)
    | (w', Throw _) => (w', Val (Some acknowledged_with_warning))
    end.
Proof.
  unfold reconcileCheckout. unfold try_catch at 1. unfold bind at 1.
  rewrite checkExistingSubscription_eval.
  destruct (negb (fault E L39_select_existing) && _).
  - destruct (truthy (subscription session)).
    + unfold stripe_subscriptions_cancel, bind, modify, throw, ret.
      destruct (fault E L228_stripe_cancel); [reflexivity |].
      destruct (provider_find E _); reflexivity.
    + reflexivity.
  - unfold try_catch, bind, ret, throw.
    destruct (createSubscription E _ uid _ w) as [w' [r | e]]; [reflexivity |].
    unfold stripe_subscriptions_retrieve, throw, ret.
    destruct (fault E L256_stripe_retrieve); [reflexivity |].
    destruct (provider_find E _); reflexivity.
Qed.

(** ** Following a relation through the monad *)

Section Preservation.

Variable R : World -> World -> Prop.
Hypothesis R_refl : forall w, R w w.
Hypothesis R_trans : forall a b c, R a b -> R b c -> R a c.
Hypothesis R_update :
  forall f id w,
    (forall r, stripe_subscription_id (f r) = stripe_subscription_id r) ->
    R w (with_subscriptions (update_rows f id (subscriptions w)) w).
Hypothesis R_insert :
  forall row w,
    data (single (rows_of (stripe_subscription_id row) w)) = None ->
    R w (with_subscriptions (subscriptions w ++ [row]) w).
Hypothesis R_pending : forall m w, R w (with_pendingSubscriptions m w).
Hypothesis R_cancel : forall l w, R w (with_cancel_requests l w).
Hypothesis R_delete :
  forall k w,
    R w (with_checkoutSessionMap (delete k (checkoutSessionMap w)) w).

Lemma keeps_ret {A} (a : A) : keeps R (ret a).
Proof. intros w. apply R_refl. Qed.

Lemma keeps_throw {A} (e : Exn) : keeps R (@throw A e).
Proof. intros w. apply R_refl. Qed.

Lemma keeps_gets {A} (f : World -> A) : keeps R (gets f).
Proof. intros w. apply R_refl. Qed.

Lemma keeps_modify (f : World -> World) :
  (forall w, R w (f w)) -> keeps R (modify f).
Proof. intros H w. apply H. Qed.

Lemma keeps_bind {A B} (m : M A) (k : A -> M B) :
  keeps R m -> (forall a, keeps R (k a)) -> keeps R (bind m k).
Proof.
  intros Hm Hk w. unfold bind. specialize (Hm w).
  destruct (m w) as [w1 [a | e]]; simpl in *.
  - eapply R_trans; [exact Hm | apply Hk].
  - exact Hm.
Qed.

Lemma keeps_try_catch {A} (m : M A) (h : Exn -> M A) :
  keeps R m -> (forall e, keeps R (h e)) -> keeps R (try_catch m h).
Proof.
  intros Hm Hh w. unfold try_catch. specialize (Hm w).
  destruct (m w) as [w1 [a | e]]; simpl in *.
  - exact Hm.
  - eapply R_trans; [exact Hm | apply Hh].
Qed.

Lemma keeps_if {A} (b : bool) (m1 m2 : M A) :
  keeps R m1 -> keeps R m2 -> keeps R (if b then m1 else m2).
Proof. destruct b; auto. Qed.

Lemma keeps_toISOString ms : keeps R (toISOString ms).
Proof.
  unfold toISOString. apply keeps_if; [apply keeps_ret | apply keeps_throw].
Qed.

Lemma keeps_update E s f id :
  (forall r, stripe_subscription_id (f r) = stripe_subscription_id r) ->
  keeps R (subscriptions_update E s f id).
Proof.
  intros Hf w. unfold subscriptions_update.
  destruct (fault E s); simpl; [apply R_refl | apply R_update; exact Hf].
Qed.

Lemma keeps_retrieve E s id : keeps R (stripe_subscriptions_retrieve E s id).
Proof.
  unfold stripe_subscriptions_retrieve.
  apply keeps_if; [apply keeps_throw |].
  destruct (provider_find _ _); [apply keeps_ret | apply keeps_throw].
Qed.

Lemma keeps_cancel E s id : keeps R (stripe_subscriptions_cancel E s id).
Proof.
  unfold stripe_subscriptions_cancel.
  apply keeps_bind; [apply keeps_modify; intros; apply R_cancel |].
  intros _. apply keeps_if; [apply keeps_throw |].
  destruct (provider_find _ _); [apply keeps_ret | apply keeps_throw].
Qed.

Lemma keeps_checkExistingSubscription E c :
  keeps R (checkExistingSubscription E c).
Proof.
  unfold checkExistingSubscription.
  apply keeps_bind; [apply keeps_gets | intros; apply keeps_ret].
Qed.

Lemma keeps_findUserIdByEmail E email : keeps R (findUserIdByEmail E email).
Proof.
  unfold findUserIdByEmail.
  apply keeps_try_catch; [| intros; apply keeps_ret].
  apply keeps_bind; [apply keeps_gets |].
  intros r. destruct (error r), (data r); apply keeps_ret.
Qed.

Lemma keeps_createSubscription E sid uid cid :
  keeps R (createSubscription E sid uid cid).
Proof.
  intros w. rewrite createSubscription_eval.
  destruct (String.eqb sid "" || String.eqb uid "" || String.eqb cid "");
    [apply R_refl |].
  destruct (if fault E L383_select_user_by_id then None else _);
    [| apply R_refl].
  destruct (fault E L394_stripe_retrieve); [apply R_refl |].
  destruct (provider_find E sid) as [s |]; [| apply R_refl].
  destruct (fault E L397_select_subscription); [apply R_refl |].
  destruct (date_in_range _); cbn [negb]; [| apply R_refl].
  destruct (data (single (rows_of sid w))) eqn:Hrows.
  - destruct (fault E L410_update); [apply R_refl |].
    apply R_update. reflexivity.
  - destruct (fault E L442_insert); [apply R_refl |].
    apply R_insert. exact Hrows.
Qed.

Lemma keeps_resolveUserId E session : keeps R (resolveUserId E session).
Proof.
  unfold resolveUserId.
  apply keeps_bind.
  - apply keeps_if; [| apply keeps_ret].
    apply keeps_if; [| apply keeps_ret].
    apply keeps_bind; [apply keeps_findUserIdByEmail |].
    intros f. apply keeps_if; [apply keeps_ret |].
    apply keeps_bind; [apply keeps_gets | intros; apply keeps_ret].
  - intros [r | uid]; [apply keeps_ret |].
    apply keeps_try_catch; [| intros; apply keeps_ret].
    apply keeps_bind; [apply keeps_gets |].
    intros ue. destruct (data ue); [apply keeps_ret |].
    apply keeps_if; [| apply keeps_ret].
    apply keeps_bind; [apply keeps_findUserIdByEmail |].
    intros f. apply keeps_if; apply keeps_ret.
Qed.

Lemma keeps_reconcileCheckout E session uid :
  keeps R (reconcileCheckout E session uid).
Proof.
  unfold reconcileCheckout.
  apply keeps_try_catch; [| intros; apply keeps_ret].
  apply keeps_bind; [apply keeps_checkExistingSubscription |].
  intros b. apply keeps_if.
  - apply keeps_bind; [| intros; apply keeps_ret].
    apply keeps_if; [apply keeps_cancel | apply keeps_ret].
  - apply keeps_bind; [| intros; apply keeps_ret].
    apply keeps_try_catch.
    + apply keeps_bind; [apply keeps_createSubscription |].
      intros; apply keeps_ret.
    + intros e. apply keeps_bind; [| intros; apply keeps_throw].
      apply keeps_try_catch; [| intros; apply keeps_ret].
      apply keeps_bind; [apply keeps_retrieve | intros; apply keeps_ret].
Qed.

Lemma keeps_dispatch E event : keeps R (dispatch E event).
Proof.
  destruct event as [session | sub | sub | sub | sub | sub | sub | ty]; simpl.
  - unfold handleCheckoutSessionCompleted.
    apply keeps_if; [apply keeps_ret |].
    apply keeps_if; [apply keeps_ret |].
    apply keeps_bind; [apply keeps_resolveUserId |].
    intros [r | uid]; [apply keeps_ret | apply keeps_reconcileCheckout].
  - unfold handleSubscriptionCreated.
    apply keeps_bind; [apply keeps_gets |].
    intros [sd |].
    + apply keeps_bind; [apply keeps_createSubscription |]. intros _.
      apply keeps_bind; [| intros; apply keeps_ret].
      apply keeps_modify. intros w. apply R_delete.
    + apply keeps_bind; [| intros; apply keeps_ret].
      apply keeps_modify. intros w. apply R_pending.
  - apply keeps_bind; [apply keeps_toISOString | intros periodEnd].
    apply keeps_bind; [apply keeps_update; reflexivity | intros; apply keeps_ret].
  - apply keeps_bind; [apply keeps_toISOString | intros periodEnd].
    apply keeps_bind; [apply keeps_update; reflexivity | intros; apply keeps_ret].
  - apply keeps_bind; [apply keeps_toISOString | intros periodEnd].
    apply keeps_bind; [apply keeps_update; reflexivity | intros; apply keeps_ret].
  - apply keeps_bind; [apply keeps_toISOString | intros periodEnd].
    apply keeps_bind; [apply keeps_update; reflexivity | intros; apply keeps_ret].
  - apply keeps_bind; [apply keeps_update; reflexivity | intros; apply keeps_ret].
  - apply keeps_ret.
Qed.

Lemma POST_keeps E request w : R w (fst (POST E request w)).
Proof.
  unfold POST. destruct request as [event |]; [| apply R_refl].
  pose proof (keeps_dispatch E event w) as H.
  destruct (dispatch E event w) as [w' [[r |] | e]]; exact H.
Qed.

Lemma deliver_keeps rs : forall w, R w (fst (deliver rs w)).
Proof.
  induction rs as [| [E request] rest IH]; intros w; simpl; [apply R_refl |].
  pose proof (POST_keeps E request w) as H1.
  destruct (POST E request w) as [w1 r]. specialize (IH w1).
  destruct (deliver rest w1) as [w2 l]. simpl in *.
  eapply R_trans; eassumption.
Qed.

End Preservation.

(** ** The users table *)

Lemma same_users_refl w : same_users w w.
Proof. reflexivity. Qed.

Lemma same_users_trans a b c :
  same_users a b -> same_users b c -> same_users a c.
Proof. unfold same_users. congruence. Qed.

(** C9: whatever the event and whatever fails, the handler leaves the
    users table as it found it; the only primitives that touch that table
    are the two reads [users_select_single] and [users_select_limit]. *)
Theorem users_table_read_only E request w :
  users (fst (POST E request w)) = users w.
Proof.
  apply (POST_keeps same_users same_users_refl same_users_trans);
    intros; reflexivity.
Qed.

Lemma deliver_users rs w : users (fst (deliver rs w)) = users w.
Proof.
  apply (deliver_keeps same_users same_users_refl same_users_trans);
    intros; reflexivity.
Qed.

(** ** The duplicate check *)

(** C10: [checkExistingSubscription] answers [true] only when exactly one
    row of the customer has status active or trialing; with no such row,
    and with two or more of them, it answers [false].  It never throws and
    writes nothing. *)
Theorem checkExistingSubscription_exactly_one E customerId w :
  fst (checkExistingSubscription E customerId w) = w /\
  (snd (checkExistingSubscription E customerId w) = Val true ->
   existing_count customerId w = 1%nat) /\
  (existing_count customerId w = 0%nat ->
   snd (checkExistingSubscription E customerId w) = Val false) /\
  ((2 <= existing_count customerId w)%nat ->
   snd (checkExistingSubscription E customerId w) = Val false) /\
  (fault E L39_select_existing = false ->
   existing_count customerId w = 1%nat ->
   snd (checkExistingSubscription E customerId w) = Val true).
Proof.
  rewrite checkExistingSubscription_eval. simpl.
  repeat split.
  - intros H. injection H as H. apply andb_true_iff in H as [_ H].
    apply Nat.eqb_eq in H. exact H.
  - intros ->. rewrite andb_false_r. reflexivity.
  - intros H. destruct (Nat.eqb_spec (existing_count customerId w) 1) as [Heq|];
      [lia | rewrite andb_false_r; reflexivity].
  - intros -> ->. reflexivity.
Qed.

Lemma checkExistingSubscription_exactly_one_witness :
  existing_count "cus_1"
    (fresh [] [Sample.row "sub_a" "active"; Sample.row "sub_b" "trialing"])
  = 2%nat /\
  snd (checkExistingSubscription Sample.E0 "cus_1"
         (fresh [] [Sample.row "sub_a" "active"; Sample.row "sub_b" "trialing"]))
  = Val false.
Proof.
  split; [reflexivity |].
  apply (checkExistingSubscription_exactly_one Sample.E0 "cus_1"
           (fresh [] [Sample.row "sub_a" "active";
                      Sample.row "sub_b" "trialing"])).
  vm_compute. lia.
Defined.

(** ** Events that only update *)

(** C8, as stated, fails: no row has subscription [sub_1], yet a
    subscription-updated event for it whose period end [Date] cannot hold
    is not acknowledged: building the literal of lines 310-315 throws at
    line 313 and the handler answers 400 "Webhook handler failed".
    Nothing is written. *)
Lemma update_event_with_unconvertible_period_end_fails :
  rows_of "sub_1" (fresh [Sample.alice] [Sample.row "sub_9" "active"]) = [] /\
  POST Sample.E1
    (Some (customer_subscription_updated (Further.far_sub "sub_1" "active")))
    (fresh [Sample.alice] [Sample.row "sub_9" "active"])
  = (fresh [Sample.alice] [Sample.row "sub_9" "active"],
     json_status (HandlerFailed "Invalid time value") 400).
Proof. split; reflexivity. Qed.

(** C8, amended: a subscription-updated, pending-update-applied,
    pending-update-expired or trial-will-end event whose subscription
    identifier matches no stored row leaves the whole world as it was,
    whatever fails; it is acknowledged with [{ received: true }] when its
    period end is a time [Date] can hold, and answered with the generic
    handler failure, status 400, when it is not. *)
Theorem update_events_without_record_are_noops E event sub w :
  is_update_event event sub ->
  rows_of (sub_id sub) w = [] ->
  POST E (Some event) w =
  (w, if converts sub then json Received
      else handler_failed "Invalid time value").
Proof.
  intros Hev Hnone. unfold POST.
  assert (dispatch E event = handleSubscriptionUpdated E sub) as ->.
  { destruct Hev as [-> | [-> | [-> | ->]]]; reflexivity. }
  rewrite handleSubscriptionUpdated_eval. unfold converts.
  destruct (date_in_range _); [| reflexivity].
  rewrite (update_rows_absent _ _ _ Hnone), with_subscriptions_same.
  destruct (fault E L308_update); reflexivity.
Qed.

Lemma update_events_without_record_are_noops_witness :
  rows_of "sub_1" (fresh [Sample.alice] [Sample.row "sub_9" "active"]) = [] /\
  POST Sample.E1
    (Some (customer_subscription_trial_will_end (Sample.psub "sub_1" "past_due")))
    (fresh [Sample.alice] [Sample.row "sub_9" "active"])
  = (fresh [Sample.alice] [Sample.row "sub_9" "active"], json Received).
Proof.
  split; [reflexivity |].
  apply (update_events_without_record_are_noops Sample.E1 _
           (Sample.psub "sub_1" "past_due")).
  - right; right; right; reflexivity.
  - reflexivity.
Defined.

(** ** Subscription deleted *)

Lemma deleted_fields_spec E sub r :
  same_identity r (deleted_fields E sub r) /\
  marked_deleted E sub (deleted_fields E sub r).
Proof. unfold same_identity, marked_deleted. simpl. tauto. Qed.

(** C7: a subscription-deleted event is always acknowledged; when the
    store accepts the update, every row with the event's subscription
    identifier gets the event's status, a cleared cancel-at-period-end
    flag, and the processing time as period end and as updated-timestamp,
    its other fields and every other row staying as they were; when no row
    matches, nothing is written. *)
Theorem subscription_deleted_postcondition E sub w :
  snd (POST E (Some (customer_subscription_deleted sub)) w) = json Received /\
  (rows_of (sub_id sub) w = [] ->
   fst (POST E (Some (customer_subscription_deleted sub)) w) = w) /\
  (fault E L324_update = false ->
   Forall2
     (fun old new =>
        same_identity old new /\
        if by_subscription_id (sub_id sub) old
        then marked_deleted E sub new
        else new = old)
     (subscriptions w)
     (subscriptions (fst (POST E (Some (customer_subscription_deleted sub)) w)))).
Proof.
  unfold POST, dispatch. rewrite handleSubscriptionDeleted_eval. simpl.
  split; [reflexivity |]. split.
  - intros Hnone.
    rewrite (update_rows_absent _ _ _ Hnone), with_subscriptions_same.
    destruct (fault E L324_update); reflexivity.
  - intros ->. simpl.
    eapply Forall2_impl; [apply update_rows_pointwise |].
    intros old new H. simpl in H.
    destruct (by_subscription_id (sub_id sub) old); subst new.
    + apply deleted_fields_spec.
    + split; [unfold same_identity; tauto | reflexivity].
Qed.

Lemma subscription_deleted_postcondition_witness :
  fault Sample.E1 L324_update = false /\
  Forall2
    (fun old new =>
       same_identity old new /\
       if by_subscription_id "sub_1" old
       then marked_deleted Sample.E1 (Sample.psub "sub_1" "canceled") new
       else new = old)
    [Sample.row "sub_1" "active"; Sample.row "sub_2" "active"]
    (subscriptions
       (fst (POST Sample.E1
               (Some (customer_subscription_deleted
                        (Sample.psub "sub_1" "canceled")))
               (fresh [Sample.alice]
                  [Sample.row "sub_1" "active"; Sample.row "sub_2" "active"])))).
Proof.
  split; [reflexivity |].
  apply (subscription_deleted_postcondition Sample.E1
           (Sample.psub "sub_1" "canceled")
           (fresh [Sample.alice]
              [Sample.row "sub_1" "active"; Sample.row "sub_2" "active"])).
  reflexivity.
Defined.

(** ** The upsert *)

Lemma refresh_fields_spec E s r :
  same_identity r (refresh_fields E s r) /\
  refreshed_from E s (refresh_fields E s r).
Proof. unfold same_identity, refreshed_from. simpl. tauto. Qed.

Lemma eqb_empty_false (x : string) : x <> "" -> String.eqb x "" = false.
Proof. intros H. apply String.eqb_neq. exact H. Qed.

Lemma single_of_length_one {A} (l : list A) :
  length l = 1%nat -> exists a, l = [a].
Proof.
  destruct l as [| a [| b l]]; simpl; intros H; try discriminate.
  exists a. reflexivity.
Qed.

(** An upsert that throws has written nothing. *)
Lemma createSubscription_throw_unchanged E sid uid cid w w' e :
  createSubscription E sid uid cid w = (w', Throw e) -> w' = w.
Proof.
  rewrite createSubscription_eval.
  repeat match goal with
         | |- context [if ?b then _ else _] => destruct b
         | |- context [match ?x with Some _ => _ | None => _ end] => destruct x
         end;
    intros H; inversion H; reflexivity.
Qed.

(** With everything in place the upsert returns. *)
Lemma createSubscription_returns E sid uid cid w :
  upsert_ready E sid uid cid w ->
  exists r, snd (createSubscription E sid uid cid w) = Val r.
Proof.
  intros (Hs & Hu & Hc & Hone & (s & Hp & Hrange) & Hok).
  rewrite createSubscription_eval.
  rewrite (eqb_empty_false _ Hs), (eqb_empty_false _ Hu),
    (eqb_empty_false _ Hc). simpl orb. cbv iota.
  rewrite !Hok, Hp, Hrange.
  apply single_of_length_one in Hone as [u Hone]. rewrite Hone. simpl.
  destruct (data (single (rows_of sid w))); eexists; reflexivity.
Qed.

Lemma newSubscription_populated E s sid uid cid :
  populated_from E s sid uid cid (newSubscription E s sid uid cid).
Proof.
  unfold populated_from, newSubscription, newSubscription_at,
    first_price_or_unknown, iso_of_seconds.
  cbn [user_id stripe_customer_id stripe_subscription_id status price_id
       current_period_end cancel_at_period_end created_at updated_at].
  destruct (sub_items s); repeat split; reflexivity.
Qed.

(** C6: when a row with the subscription identifier is stored,
    [createSubscription] either throws and writes nothing, or returns that
    row and refreshes its status, period end, cancel-at-period-end flag
    and updated-timestamp from the provider, leaving its user, customer,
    price and created-timestamp, every other row and the number of rows
    as they were; when no row is stored it either throws and writes
    nothing, or appends one row whose nine fields are the three
    arguments, the provider's status, first price (or [unknown]), period
    end in milliseconds and cancel flag, and the processing time twice;
    and with an existing user, a subscription the provider knows with a
    period end [Date] can hold, and no failing call it does return. *)
Theorem createSubscription_upsert_frame E sid uid cid w :
  unique_ids w ->
  (forall existing,
     In existing (subscriptions w) ->
     stripe_subscription_id existing = sid ->
     (exists e, createSubscription E sid uid cid w = (w, Throw e)) \/
     (exists s w',
        provider_find E sid = Some s /\
        createSubscription E sid uid cid w = (w', Val (Some existing)) /\
        w' = with_subscriptions (subscriptions w') w /\
        Forall2
          (fun old new =>
             same_identity old new /\
             if by_subscription_id sid old
             then refreshed_from E s new
             else new = old)
          (subscriptions w) (subscriptions w'))) /\
  (rows_of sid w = [] ->
     (exists e, createSubscription E sid uid cid w = (w, Throw e)) \/
     (exists s row,
        provider_find E sid = Some s /\
        populated_from E s sid uid cid row /\
        createSubscription E sid uid cid w =
        (with_subscriptions (subscriptions w ++ [row]) w,
         Val (if fault E L452_select_subscription then None
              else Some row)))) /\
  (upsert_ready E sid uid cid w ->
   exists r, snd (createSubscription E sid uid cid w) = Val r).
Proof.
  intros Huniq. split; [| split].
  - intros existing Hin Hid.
    pose proof (filter_unique _ _ Huniq Hin) as Hrows. rewrite Hid in Hrows.
    rewrite createSubscription_eval. unfold rows_of. rewrite Hrows.
    cbn [data single].
    destruct (String.eqb sid "" || String.eqb uid "" || String.eqb cid "");
      [left; eexists; reflexivity |].
    destruct (if fault E L383_select_user_by_id then None else _);
      [| left; eexists; reflexivity].
    destruct (fault E L394_stripe_retrieve); [left; eexists; reflexivity |].
    destruct (provider_find E sid) as [s |]; [| left; eexists; reflexivity].
    destruct (fault E L397_select_subscription);
      [left; eexists; reflexivity |].
    destruct (date_in_range _); cbn [negb]; [| left; eexists; reflexivity].
    destruct (fault E L410_update); [left; eexists; reflexivity |].
    right. exists s. eexists. split; [reflexivity |].
    split; [reflexivity |]. split; [reflexivity |]. simpl.
    eapply Forall2_impl; [apply update_rows_pointwise |].
    intros old new H. simpl in H.
    destruct (by_subscription_id sid old); subst new.
    + apply refresh_fields_spec.
    + split; [unfold same_identity; tauto | reflexivity].
  - intros Hnone.
    rewrite createSubscription_eval. rewrite Hnone. cbn [data single].
    destruct (String.eqb sid "" || String.eqb uid "" || String.eqb cid "");
      [left; eexists; reflexivity |].
    destruct (if fault E L383_select_user_by_id then None else _);
      [| left; eexists; reflexivity].
    destruct (fault E L394_stripe_retrieve); [left; eexists; reflexivity |].
    destruct (provider_find E sid) as [s |]; [| left; eexists; reflexivity].
    destruct (fault E L397_select_subscription);
      [left; eexists; reflexivity |].
    destruct (date_in_range _); cbn [negb]; [| left; eexists; reflexivity].
    destruct (fault E L442_insert); [left; eexists; reflexivity |].
    right. exists s, (newSubscription E s sid uid cid).
    split; [reflexivity |]. split; [apply newSubscription_populated |].
    cbv zeta.
    unfold rows_of at 1. cbn [subscriptions with_subscriptions].
    unfold rows_of in Hnone.
    rewrite (filter_app_last sid _ (newSubscription E s sid uid cid) Hnone
               eq_refl).
    reflexivity.
  - apply createSubscription_returns.
Qed.

Lemma createSubscription_upsert_frame_witness :
  unique_ids Sample.two_rows /\
  In (Sample.row "sub_1" "incomplete") (subscriptions Sample.two_rows) /\
  upsert_ready Sample.E0 "sub_1" Sample.U1 "cus_1" Sample.two_rows /\
  ((exists e,
      createSubscription Sample.E0 "sub_1" Sample.U1 "cus_1" Sample.two_rows
      = (Sample.two_rows, Throw e)) \/
   (exists s w',
      provider_find Sample.E0 "sub_1" = Some s /\
      createSubscription Sample.E0 "sub_1" Sample.U1 "cus_1" Sample.two_rows
      = (w', Val (Some (Sample.row "sub_1" "incomplete"))) /\
      w' = with_subscriptions (subscriptions w') Sample.two_rows /\
      Forall2
        (fun old new =>
           same_identity old new /\
           if by_subscription_id "sub_1" old
           then refreshed_from Sample.E0 s new
           else new = old)
        (subscriptions Sample.two_rows) (subscriptions w'))) /\
  (exists r,
     snd (createSubscription Sample.E0 "sub_1" Sample.U1 "cus_1"
            Sample.two_rows) = Val r).
Proof.
  assert (unique_ids Sample.two_rows) as Huniq.
  { unfold unique_ids. simpl. repeat constructor; simpl; intuition discriminate. }
  assert (upsert_ready Sample.E0 "sub_1" Sample.U1 "cus_1" Sample.two_rows)
    as Hready.
  { repeat split; try discriminate; try reflexivity.
    exists (Sample.psub "sub_1" "active"). split; reflexivity. }
  destruct (createSubscription_upsert_frame Sample.E0 "sub_1" Sample.U1
              "cus_1" Sample.two_rows Huniq) as (Hexisting & _ & Hreturns).
  split; [exact Huniq |]. split; [left; reflexivity |].
  split; [exact Hready |]. split.
  - apply (Hexisting (Sample.row "sub_1" "incomplete"));
      [left; reflexivity | reflexivity].
  - apply Hreturns. exact Hready.
Defined.

Example createSubscription_existing_row :
  createSubscription Sample.E0 "sub_1" Sample.U1 "cus_1" Sample.two_rows
  = (fresh [Sample.alice]
       [ {| user_id := Sample.U1;
            stripe_customer_id := "cus_1";
            stripe_subscription_id := "sub_1";
            status := "active";
            price_id := "price_1";
            current_period_end := Iso 1700000000000;
            cancel_at_period_end := false;
            created_at := Iso 1680000000000;
            updated_at := Iso 1699990000000 |};
         Sample.row "sub_2" "active" ],
     Val (Some (Sample.row "sub_1" "incomplete"))).
Proof. reflexivity. Qed.

(** ** Invariants of the handler *)

Lemma rows_of_at_most_one id w :
  unique_ids w -> rows_of id w = [] \/ exists r, rows_of id w = [r].
Proof.
  intros Huniq. unfold rows_of.
  destruct (List.filter (by_subscription_id id) (subscriptions w))
    as [| r rs] eqn:Hf; [left; reflexivity |].
  right. exists r.
  assert (In r (List.filter (by_subscription_id id) (subscriptions w))) as Hin
    by (rewrite Hf; left; reflexivity).
  apply List.filter_In in Hin as [Hin Hid].
  unfold by_subscription_id in Hid. apply String.eqb_eq in Hid.
  rewrite <- Hf, <- Hid. apply filter_unique; assumption.
Qed.

Lemma keeps_unique_ids_refl w : keeps_unique_ids w w.
Proof. intros H. exact H. Qed.

Lemma keeps_unique_ids_trans a b c :
  keeps_unique_ids a b -> keeps_unique_ids b c -> keeps_unique_ids a c.
Proof. unfold keeps_unique_ids. auto. Qed.

Lemma keeps_unique_ids_update f id w :
  (forall r, stripe_subscription_id (f r) = stripe_subscription_id r) ->
  keeps_unique_ids w
    (with_subscriptions (update_rows f id (subscriptions w)) w).
Proof.
  intros Hf Huniq. unfold unique_ids in *. simpl.
  rewrite update_rows_ids by exact Hf. exact Huniq.
Qed.

Lemma keeps_unique_ids_insert row w :
  data (single (rows_of (stripe_subscription_id row) w)) = None ->
  keeps_unique_ids w (with_subscriptions (subscriptions w ++ [row]) w).
Proof.
  intros Hnone Huniq.
  destruct (rows_of_at_most_one (stripe_subscription_id row) w Huniq)
    as [Hrows | [r Hrows]]; rewrite Hrows in Hnone; [| discriminate].
  unfold unique_ids in *. simpl. rewrite map_app. simpl.
  apply List.NoDup_app; [exact Huniq | repeat constructor; simpl; tauto |].
  intros x Hx [<- | []].
  exact (filter_absent_not_in _ _ Hrows Hx).
Qed.

(** The data model's invariant holds after a request if it held before. *)
Lemma POST_unique_ids E request w :
  unique_ids w -> unique_ids (fst (POST E request w)).
Proof.
  apply (POST_keeps keeps_unique_ids keeps_unique_ids_refl
           keeps_unique_ids_trans keeps_unique_ids_update
           keeps_unique_ids_insert);
    intros; intros H; exact H.
Qed.

Lemma deliver_unique_ids rs w :
  unique_ids w -> unique_ids (fst (deliver rs w)).
Proof.
  apply (deliver_keeps keeps_unique_ids keeps_unique_ids_refl
           keeps_unique_ids_trans keeps_unique_ids_update
           keeps_unique_ids_insert);
    intros; intros H; exact H.
Qed.

Lemma no_new_association_refl w : no_new_association w w.
Proof. intros k H. exact H. Qed.

Lemma no_new_association_trans a b c :
  no_new_association a b -> no_new_association b c -> no_new_association a c.
Proof. unfold no_new_association. auto. Qed.

Lemma no_new_association_delete k w :
  no_new_association w
    (with_checkoutSessionMap (delete k (checkoutSessionMap w)) w).
Proof.
  intros j Hj. simpl. destruct (decide (k = j)) as [-> | Hne].
  - apply lookup_delete_eq.
  - rewrite lookup_delete_ne by exact Hne. exact Hj.
Qed.

(** No handler adds a key to [checkoutSessionMap]. *)
Lemma POST_no_new_association E request w :
  no_new_association w (fst (POST E request w)).
Proof.
  apply (POST_keeps no_new_association no_new_association_refl
           no_new_association_trans);
    try (intros; intros j Hj; exact Hj).
  intros; apply no_new_association_delete.
Qed.

Lemma deliver_no_new_association rs w :
  no_new_association w (fst (deliver rs w)).
Proof.
  apply (deliver_keeps no_new_association no_new_association_refl
           no_new_association_trans);
    try (intros; intros j Hj; exact Hj).
  intros; apply no_new_association_delete.
Qed.

(** ** Failures of checkout completion *)

Lemma handleCheckoutSessionCompleted_valid E session w who :
  truthy (subscription session) = true ->
  truthy (customer session) = true ->
  resolveUserId E session w = (w, Val who) ->
  handleCheckoutSessionCompleted E session w =
  match who with
  | inl response => (w, Val (Some response))
  | inr userId => reconcileCheckout E session userId w
  end.
Proof.
  intros Hs Hc Hwho. unfold handleCheckoutSessionCompleted.
  rewrite Hs, Hc. cbn [negb]. unfold bind. rewrite Hwho.
  destruct who; reflexivity.
Qed.

(** The reconciliation block never throws, and answers with status 200
    when it answers itself. *)
Lemma reconcileCheckout_swallows E session uid w :
  exists w' o,
    reconcileCheckout E session uid w = (w', Val o) /\
    match o with
    | Some r => resp_status r = 200
    | None => True
    end.
Proof.
  rewrite reconcileCheckout_eval.
  destruct (negb (fault E L39_select_existing) && _).
  - destruct (truthy (subscription session)).
    + do 2 eexists. split; [reflexivity |].
      destruct (fault E L228_stripe_cancel); [reflexivity |].
      destruct (provider_find E _); reflexivity.
    + do 2 eexists. split; reflexivity.
  - destruct (createSubscription E _ uid _ w) as [w' [r | e]];
      do 2 eexists; (split; [reflexivity |]); [exact I | reflexivity].
Qed.




(** ** Identity resolution *)

Lemma uuid_not_empty uid : uuid_regex_match uid = true -> String.eqb uid "" = false.
Proof.
  intros H. destruct (String.eqb_spec uid "") as [-> |]; [| reflexivity].
  discriminate H.
Qed.

Lemma reference_or_empty (v : option string) :
  as_string (js_or v (Some "")) = as_string v.
Proof.
  destruct v as [x |]; [| reflexivity].
  unfold js_or, truthy. destruct (String.eqb_spec x "") as [-> |]; reflexivity.
Qed.

(** A well-shaped [client_reference_id] that is the identifier of exactly
    one user is the user the session resolves to. *)
Lemma resolveUserId_by_reference E session uid w :
  names_user session uid w ->
  fault E L187_select_user_by_id = false ->
  resolveUserId E session w = (w, Val (inr uid)).
Proof.
  intros (Href & Hshape & Hone) Hok.
  unfold resolveUserId. rewrite reference_or_empty, Href. cbn [as_string].
  rewrite (uuid_not_empty _ Hshape), Hshape. cbn [negb orb].
  unfold bind, ret, try_catch, users_select_single, gets. rewrite Hok.
  apply single_of_length_one in Hone as [u Hone]. rewrite Hone. reflexivity.
Qed.

(** Without a well-shaped [client_reference_id], a session whose email
    lookup finds nobody is rejected at once. *)
Lemma resolveUserId_unresolved E session w :
  uuid_regex_match (as_string (client_reference_id session)) = false ->
  (truthy (session_email session) = false \/
   findUserIdByEmail E (as_string (session_email session)) w = (w, Val None)) ->
  exists r,
    resolveUserId E session w = (w, Val (inl r)) /\
    identity_rejection r /\ resp_status r = 400.
Proof.
  intros Hshape Hemail.
  unfold resolveUserId. rewrite reference_or_empty, Hshape.
  rewrite orb_true_r. unfold bind, ret, identity_rejection.
  destruct (truthy (session_email session)) eqn:Ht.
  - destruct Hemail as [H | H]; [discriminate |]. rewrite H. cbn [truthy].
    unfold users_select_limit, gets.
    eexists; split; [reflexivity |]. split; [auto 6 | reflexivity].
  - eexists; split; [reflexivity |]. split; [auto 6 | reflexivity].
Qed.

(** Without a well-shaped [client_reference_id], the identifier the email
    lookup finds is the one used. *)
Lemma resolveUserId_by_email E session uid w :
  uuid_regex_match (as_string (client_reference_id session)) = false ->
  truthy (session_email session) = true ->
  findUserIdByEmail E (as_string (session_email session)) w
  = (w, Val (Some uid)) ->
  uid <> "" ->
  resolveUserId E session w = (w, Val (inr uid)).
Proof.
  intros Hshape Ht Hfind Hne.
  unfold resolveUserId. rewrite reference_or_empty, Hshape.
  rewrite orb_true_r, Ht. unfold bind at 1. unfold bind at 1.
  rewrite Hfind. cbn [truthy as_string]. rewrite (eqb_empty_false _ Hne).
  cbn [negb]. unfold ret at 1.
  unfold try_catch, bind, ret, users_select_single, gets.
  destruct (data _); [reflexivity |].
  rewrite Hfind. cbn [truthy as_string]. rewrite (eqb_empty_false _ Hne).
  reflexivity.
Qed.

(** On a pattern without wildcard characters [ilike] is the
    case-insensitive equality. *)
Lemma like_ci_exact p : forall t,
  forallb (fun c => negb (is_wildcard c)) p = true ->
  like_ci p t = eq_ci_list t p.
Proof.
  induction p as [| c p IH]; intros t Hp.
  - destruct t; reflexivity.
  - simpl in Hp. apply andb_true_iff in Hp as [Hc Hp].
    unfold is_wildcard in Hc. apply negb_true_iff in Hc.
    apply orb_false_iff in Hc as [Hc Hbs].
    apply orb_false_iff in Hc as [Hc Hus].
    simpl. rewrite Hc, Hus, Hbs.
    destruct t as [| x t]; [reflexivity |].
    rewrite (IH t Hp). simpl. f_equal.
    unfold eqb_ci. apply Ascii.eqb_sym.
Qed.

Lemma ilike_exact text pattern :
  forallb (fun c => negb (is_wildcard c)) (list_ascii_of_string pattern) = true ->
  ilike text pattern = eq_ci text pattern.
Proof. intros H. unfold ilike, eq_ci. apply like_ci_exact. exact H. Qed.

(** ** Checkout completion, end to end *)

Lemma well_formed_truthy session sid cid :
  well_formed_checkout session sid cid ->
  truthy (subscription session) = true /\
  truthy (customer session) = true /\
  as_string (subscription session) = sid /\
  as_string (customer session) = cid.
Proof.
  intros (Hs & Hc & Hsne & Hcne). rewrite Hs, Hc. simpl.
  rewrite (eqb_empty_false _ Hsne), (eqb_empty_false _ Hcne). auto.
Qed.

(** A checkout completion that resolves its user runs the reconciliation
    block on the world as it is. *)
Lemma POST_checkout_resolved E session sid cid uid w :
  well_formed_checkout session sid cid ->
  resolveUserId E session w = (w, Val (inr uid)) ->
  POST E (Some (checkout_session_completed session)) w =
  match reconcileCheckout E session uid w with
  | (w', Val (Some response)) => (w', response)
  | (w', Val None) => (w', acknowledged)
  | (w', Throw error) =>
      (w', json_status (HandlerFailed (exn_message error)) 400)
  end.
Proof.
  intros Hwf Hwho. apply well_formed_truthy in Hwf as (Hs & Hc & _ & _).
  unfold POST, dispatch.
  rewrite (handleCheckoutSessionCompleted_valid _ _ _ _ Hs Hc Hwho).
  reflexivity.
Qed.

Lemma truthy_not_empty (v : option string) :
  truthy v = true -> as_string v <> "".
Proof.
  destruct v as [x |]; simpl; [| discriminate].
  destruct (String.eqb_spec x ""); [discriminate | auto].
Qed.

(** The identifier the identity block answers is never empty. *)
Lemma resolveUserId_not_empty E session w w' uid :
  resolveUserId E session w = (w', Val (inr uid)) -> uid <> "".
Proof.
  unfold resolveUserId, bind, try_catch.
  set (ref := as_string (js_or (client_reference_id session) (Some ""))).
  assert (forall x (v : World * Res (Response + string)),
            x <> "" ->
            (let (w1, r) :=
               users_select_single E L187_select_user_by_id
                 (fun u => String.eqb (u_id u) x) w in
             match r with
             | Val a =>
                 match data a with
                 | Some _ => ret (inr x)
                 | None =>
                     if truthy (session_email session)
                     then
                       fun w0 =>
                         let (w2, r0) :=
                           findUserIdByEmail E
                             (as_string (session_email session)) w0 in
                         match r0 with
                         | Val a0 =>
                             (if truthy a0 then ret (inr (as_string a0))
                              else ret (inl (json_status
                                               (ErrorBody "User ID not valid")
                                               400))) w2
                         | Throw e => (w2, Throw e)
                         end
                     else
                       ret (inl (json_status
                                   (ErrorBody
                                      "User ID not valid and no email to retry")
                                   400))
                 end w1
             | Throw e => (w1, Throw e)
             end) = v ->
            forall w2 y, (let (w3, r) := v in
                          match r with
                          | Val a => (w3, Val a)
                          | Throw e => ret (inr x) w3
                          end) = (w2, Val (inr y)) -> y <> "") as Hsecond.
  { intros x v Hx <- w2 y. unfold users_select_single, gets, ret.
    destruct (data _).
    - intros [= _ <-]. exact Hx.
    - destruct (truthy (session_email session)); [| discriminate].
      rewrite findUserIdByEmail_eval.
      destruct (truthy _) eqn:Ht; [| discriminate].
      intros [= _ <-]. apply truthy_not_empty. exact Ht. }
  destruct (String.eqb_spec ref "") as [Hempty | Hne].
  - cbn [orb].
    destruct (truthy (session_email session)); [| discriminate].
    rewrite findUserIdByEmail_eval.
    destruct (truthy _) eqn:Ht; [| discriminate].
    unfold ret at 1. intros H.
    eapply (Hsecond _ _ (truthy_not_empty _ Ht) eq_refl). exact H.
  - cbn [orb]. destruct (negb (uuid_regex_match ref)).
    + destruct (truthy (session_email session)); [| discriminate].
      rewrite findUserIdByEmail_eval.
      destruct (truthy _) eqn:Ht; [| discriminate].
      unfold ret at 1. intros H.
      eapply (Hsecond _ _ (truthy_not_empty _ Ht) eq_refl). exact H.
    + unfold ret at 1. intros H.
      eapply (Hsecond _ _ Hne eq_refl). exact H.
Qed.

(** A checkout completion that goes through: the identity block names a
    user stored once, the duplicate check does not find its one row, the
    subscription has no row yet, the provider knows it with a period end
    [Date] can hold, and the four calls [createSubscription] makes before
    it returns succeed.  Exactly one row is appended, linked to that user
    and that customer. *)
Lemma checkout_writes_one_record E session sid cid uid s w :
  well_formed_checkout session sid cid ->
  resolveUserId E session w = (w, Val (inr uid)) ->
  user_count uid w = 1%nat ->
  fault E L383_select_user_by_id = false ->
  fault E L394_stripe_retrieve = false ->
  fault E L397_select_subscription = false ->
  fault E L442_insert = false ->
  provider_find E sid = Some s ->
  converts s = true ->
  existing_count cid w <> 1%nat ->
  rows_of sid w = [] ->
  POST E (Some (checkout_session_completed session)) w =
  (with_subscriptions (subscriptions w ++ [newSubscription E s sid uid cid]) w,
   acknowledged).
Proof.
  intros Hwf Hwho Hone Hok Hok1 Hok2 Hok3 Hprov Hrange Hcount Hnone.
  pose proof (resolveUserId_not_empty _ _ _ _ _ Hwho) as Hune.
  rewrite (POST_checkout_resolved _ _ _ _ _ _ Hwf Hwho).
  pose proof Hwf as (_ & _ & Hsne & Hcne).
  apply well_formed_truthy in Hwf as (_ & _ & Hs & Hc).
  rewrite reconcileCheckout_eval, Hs, Hc.
  apply Nat.eqb_neq in Hcount. rewrite Hcount, andb_false_r.
  rewrite createSubscription_eval.
  rewrite (eqb_empty_false _ Hsne), (eqb_empty_false _ Hcne),
    (eqb_empty_false _ Hune). cbn [orb].
  unfold converts in Hrange.
  rewrite Hok, Hok1, Hok2, Hok3, Hprov, Hrange, Hnone.
  apply single_of_length_one in Hone as [u Hone]. rewrite Hone.
  reflexivity.
Qed.

(** The first delivery: with a named user, no single active or trialing
    row of the customer, no row of the subscription yet, and a provider
    and a store that answer, exactly one row is appended, linked to that
    user and that customer. *)
Lemma checkout_creates_one_record E session sid cid uid s w :
  well_formed_checkout session sid cid ->
  names_user session uid w ->
  store_ok E ->
  provider_find E sid = Some s ->
  converts s = true ->
  existing_count cid w <> 1%nat ->
  rows_of sid w = [] ->
  POST E (Some (checkout_session_completed session)) w =
  (with_subscriptions (subscriptions w ++ [newSubscription E s sid uid cid]) w,
   acknowledged).
Proof.
  intros Hwf Hname Hok Hprov Hrange Hcount Hnone.
  pose proof (resolveUserId_by_reference E session uid w Hname (Hok _)) as Hwho.
  destruct Hname as (_ & _ & Hone).
  apply (checkout_writes_one_record E session sid cid uid s w);
    solve [assumption | apply Hok].
Qed.

(** A checkout completion for a subscription that already has its row
    never adds a row: the identifiers in the table stay the same,
    whatever fails. *)
Lemma redelivery_never_duplicates E session sid cid row w :
  well_formed_checkout session sid cid ->
  unique_ids w ->
  In row (subscriptions w) ->
  stripe_subscription_id row = sid ->
  map stripe_subscription_id
    (subscriptions (fst (POST E (Some (checkout_session_completed session)) w)))
  = map stripe_subscription_id (subscriptions w).
Proof.
  intros Hwf Huniq Hin Hid.
  destruct (resolveUserId_cases E session w) as [who [Hwho _]].
  pose proof Hwf as Hwf'.
  apply well_formed_truthy in Hwf' as (Ht1 & Ht2 & Hs & Hc).
  unfold POST, dispatch.
  rewrite (handleCheckoutSessionCompleted_valid _ _ _ _ Ht1 Ht2 Hwho).
  destruct who as [r | uid]; [reflexivity |].
  rewrite reconcileCheckout_eval, Hs, Hc, Ht1.
  destruct (negb (fault E L39_select_existing) && _); [reflexivity |].
  rewrite createSubscription_eval.
  pose proof (filter_unique _ _ Huniq Hin) as Hrows. rewrite Hid in Hrows.
  unfold rows_of at 1. rewrite Hrows. cbn [data single].
  repeat match goal with
         | |- context [if ?b then _ else _] => destruct b
         | |- context [match ?x with Some _ => _ | None => _ end] => destruct x
         end; try reflexivity.
  simpl. apply update_rows_ids. reflexivity.
Qed.

(** When the duplicate check finds its one row, the reconciliation block
    writes no row, puts a cancellation of the event's subscription on
    record, and answers "blocked" if the provider takes the cancellation. *)
Lemma single_active_subscription_blocks E session sid cid uid w :
  well_formed_checkout session sid cid ->
  resolveUserId E session w = (w, Val (inr uid)) ->
  fault E L39_select_existing = false ->
  existing_count cid w = 1%nat ->
  POST E (Some (checkout_session_completed session)) w =
  (with_cancel_requests (cancel_requests w ++ [sid]) w,
   if fault E L228_stripe_cancel then acknowledged_with_warning
   else match provider_find E sid with
        | Some _ => blocked
        | None => acknowledged_with_warning
        end).
Proof.
  intros Hwf Hwho Hok Hcount.
  rewrite (POST_checkout_resolved _ _ _ _ _ _ Hwf Hwho).
  apply well_formed_truthy in Hwf as (Ht1 & _ & Hs & Hc).
  rewrite reconcileCheckout_eval, Hs, Hc, Ht1, Hok, Hcount. reflexivity.
Qed.

(** The redelivery itself: after a first delivery that stored the row
    with status active or trialing, the same event is taken for a
    duplicate, its own subscription is cancelled at the provider and the
    row is not refreshed. *)
Lemma redelivery_blocks_own_subscription E1 E2 session sid cid uid s1 s2 w :
  well_formed_checkout session sid cid ->
  names_user session uid w ->
  store_ok E1 -> store_ok E2 ->
  provider_find E1 sid = Some s1 ->
  provider_find E2 sid = Some s2 ->
  converts s1 = true ->
  is_active_or_trialing (sub_status s1) = true ->
  existing_count cid w = 0%nat ->
  rows_of sid w = [] ->
  deliver [(E1, Some (checkout_session_completed session));
           (E2, Some (checkout_session_completed session))] w =
  (with_cancel_requests (cancel_requests w ++ [sid])
     (with_subscriptions
        (subscriptions w ++ [newSubscription E1 s1 sid uid cid]) w),
   [acknowledged; blocked]).
Proof.
  intros Hwf Hname Hok1 Hok2 Hp1 Hp2 Hrange Hact Hcount Hnone.
  unfold deliver.
  rewrite (checkout_creates_one_record E1 session sid cid uid s1 w)
    by (try assumption; rewrite Hcount; discriminate).
  set (w1 := with_subscriptions _ w).
  assert (names_user session uid w1) as Hname1 by exact Hname.
  pose proof (resolveUserId_by_reference E2 session uid w1 Hname1 (Hok2 _))
    as Hwho.
  rewrite (single_active_subscription_blocks E2 session sid cid uid w1 Hwf Hwho
             (Hok2 _)).
  - rewrite Hok2, Hp2. reflexivity.
  - unfold existing_count in *. subst w1. cbn [subscriptions with_subscriptions].
    rewrite List.filter_app, length_app, Hcount. simpl.
    unfold existing_filter. simpl. rewrite String.eqb_refl, Hact. reflexivity.
Qed.

(** ** What does not look at the stash *)

Lemma blind_ret {A} (a : A) : blind (ret a).
Proof. intros p w. reflexivity. Qed.

Lemma blind_throw {A} (e : Exn) : blind (@throw A e).
Proof. intros p w. reflexivity. Qed.

Lemma blind_gets {A} (f : World -> A) :
  (forall p w, f (with_pendingSubscriptions p w) = f w) -> blind (gets f).
Proof. intros H p w. unfold gets. rewrite H. reflexivity. Qed.

Lemma blind_bind {A B} (m : M A) (k : A -> M B) :
  blind m -> (forall a, blind (k a)) -> blind (bind m k).
Proof.
  intros Hm Hk p w. unfold bind. rewrite Hm.
  destruct (m w) as [w1 [a | e]]; simpl; [apply Hk | reflexivity].
Qed.

Lemma blind_try_catch {A} (m : M A) (h : Exn -> M A) :
  blind m -> (forall e, blind (h e)) -> blind (try_catch m h).
Proof.
  intros Hm Hh p w. unfold try_catch. rewrite Hm.
  destruct (m w) as [w1 [a | e]]; simpl; [reflexivity | apply Hh].
Qed.

Lemma blind_if {A} (b : bool) (m1 m2 : M A) :
  blind m1 -> blind m2 -> blind (if b then m1 else m2).
Proof. destruct b; auto. Qed.

Lemma blind_users_select E s f : blind (users_select_single E s f).
Proof. apply blind_gets. reflexivity. Qed.

Lemma blind_findUserIdByEmail E email : blind (findUserIdByEmail E email).
Proof.
  unfold findUserIdByEmail.
  apply blind_try_catch; [| intros; apply blind_ret].
  apply blind_bind; [apply blind_users_select |].
  intros r. destruct (error r), (data r); apply blind_ret.
Qed.

Lemma blind_resolveUserId E session : blind (resolveUserId E session).
Proof.
  unfold resolveUserId.
  apply blind_bind.
  - apply blind_if; [| apply blind_ret].
    apply blind_if; [| apply blind_ret].
    apply blind_bind; [apply blind_findUserIdByEmail |].
    intros f. apply blind_if; [apply blind_ret |].
    apply blind_bind; [apply blind_gets; reflexivity | intros; apply blind_ret].
  - intros [r | uid]; [apply blind_ret |].
    apply blind_try_catch; [| intros; apply blind_ret].
    apply blind_bind; [apply blind_users_select |].
    intros ue. destruct (data ue); [apply blind_ret |].
    apply blind_if; [| apply blind_ret].
    apply blind_bind; [apply blind_findUserIdByEmail |].
    intros f. apply blind_if; apply blind_ret.
Qed.

(** ** Subscription created and checkout completion, in either order *)

Lemma handleSubscriptionCreated_stashes E sub w :
  checkoutSessionMap w !! sub_id sub = None ->
  POST E (Some (customer_subscription_created sub)) w =
  (with_pendingSubscriptions
     (<[sub_id sub := stash sub]> (pendingSubscriptions w)) w,
   acknowledged).
Proof.
  intros Hnone. unfold POST, dispatch, handleSubscriptionCreated, bind, gets.
  rewrite Hnone. reflexivity.
Qed.

Lemma handleSubscriptionCreated_consumes E sub sd w w1 r :
  checkoutSessionMap w !! sub_id sub = Some sd ->
  createSubscription E (sub_id sub) (userId sd) (customerId sd) w
  = (w1, Val r) ->
  POST E (Some (customer_subscription_created sub)) w =
  (with_checkoutSessionMap (delete (sub_id sub) (checkoutSessionMap w1)) w1,
   acknowledged).
Proof.
  intros Hsome Hup. unfold POST, dispatch, handleSubscriptionCreated, bind, gets.
  rewrite Hsome, Hup. reflexivity.
Qed.

(** C1, as stated, fails: after a checkout completion for [sub_1] has
    gone through, no association for [sub_1] is on record, and the
    subscription-created event for [sub_1] that follows performs no upsert
    (the row keeps the status and the timestamp of the first request,
    although the provider now reports [past_due] a minute later) and
    discards nothing; it stores the subscription's customer in
    [pendingSubscriptions]. *)
Lemma checkout_completion_records_no_association :
  snd (POST Sample.E0
         (Some (checkout_session_completed (Sample.checkout "sub_1")))
         (fresh [Sample.alice] []))
  = acknowledged /\
  checkoutSessionMap
    (fst (POST Sample.E0
            (Some (checkout_session_completed (Sample.checkout "sub_1")))
            (fresh [Sample.alice] [])))
  !! "sub_1" = None /\
  subscriptions
    (fst (deliver
            [(Sample.E0,
              Some (checkout_session_completed (Sample.checkout "sub_1")));
             (Sample.E1,
              Some (customer_subscription_created
                      (Sample.psub "sub_1" "past_due")))]
            (fresh [Sample.alice] [])))
  = [newSubscription Sample.E0 (Sample.psub "sub_1" "active")
       "sub_1" Sample.U1 "cus_1"] /\
  pendingSubscriptions
    (fst (deliver
            [(Sample.E0,
              Some (checkout_session_completed (Sample.checkout "sub_1")));
             (Sample.E1,
              Some (customer_subscription_created
                      (Sample.psub "sub_1" "past_due")))]
            (fresh [Sample.alice] [])))
  !! "sub_1" = Some (stash (Sample.psub "sub_1" "past_due")).
Proof. vm_compute. repeat split; reflexivity. Qed.

(** C1, amended: when the subscription-created event is processed first
    and the checkout completion for the same subscription then goes
    through (the identity block names a user stored once, the duplicate
    check does not find its one row, the subscription has no row yet, the
    provider knows it with a period end [Date] can hold, and the two
    reads, the provider call and the insert of [createSubscription]
    succeed), both events are acknowledged and exactly one row exists for the
    subscription, linked to the resolved user and to the session's
    customer; the row is written by checkout completion itself.  The
    subscription-created handler upserts and then deletes the entry only
    if [checkoutSessionMap] holds one for the subscription; no request
    ever adds an entry to that map, and without one the handler only
    stores the subscription's customer in [pendingSubscriptions]. *)
Theorem out_of_order_bridging :
  (forall E1 E2 sub session sid cid uid s w,
     sub_id sub = sid ->
     well_formed_checkout session sid cid ->
     resolveUserId E2 session w = (w, Val (inr uid)) ->
     user_count uid w = 1%nat ->
     fault E2 L383_select_user_by_id = false ->
     fault E2 L394_stripe_retrieve = false ->
     fault E2 L397_select_subscription = false ->
     fault E2 L442_insert = false ->
     provider_find E2 sid = Some s ->
     converts s = true ->
     existing_count cid w <> 1%nat ->
     rows_of sid w = [] ->
     checkoutSessionMap w !! sid = None ->
     exists w2 row,
       deliver [(E1, Some (customer_subscription_created sub));
                (E2, Some (checkout_session_completed session))] w
       = (w2, [acknowledged; acknowledged]) /\
       rows_of sid w2 = [row] /\
       user_id row = uid /\
       stripe_customer_id row = cid /\
       subscriptions w2 = subscriptions w ++ [row] /\
       pendingSubscriptions w2 !! sid = Some (stash sub)) /\
  (forall E sub sd w w1 r,
     checkoutSessionMap w !! sub_id sub = Some sd ->
     createSubscription E (sub_id sub) (userId sd) (customerId sd) w
     = (w1, Val r) ->
     POST E (Some (customer_subscription_created sub)) w =
     (with_checkoutSessionMap (delete (sub_id sub) (checkoutSessionMap w1)) w1,
      acknowledged)) /\
  (forall E request w k,
     checkoutSessionMap w !! k = None ->
     checkoutSessionMap (fst (POST E request w)) !! k = None) /\
  (forall E sub w,
     checkoutSessionMap w !! sub_id sub = None ->
     POST E (Some (customer_subscription_created sub)) w =
     (with_pendingSubscriptions
        (<[sub_id sub := stash sub]> (pendingSubscriptions w)) w,
      acknowledged)).
Proof.
  split; [| split; [| split]].
  - intros E1 E2 sub session sid cid uid s w Hid Hwf Hwho Hone Hok Hok1 Hok2
      Hok3 Hprov Hrange Hcount Hnone Hmap.
    subst sid. unfold deliver.
    rewrite (handleSubscriptionCreated_stashes E1 sub w Hmap).
    set (w1 := with_pendingSubscriptions _ w).
    assert (resolveUserId E2 session w1 = (w1, Val (inr uid))) as Hwho1.
    { subst w1. rewrite (blind_resolveUserId E2 session _ w), Hwho.
      reflexivity. }
    rewrite (checkout_writes_one_record E2 session (sub_id sub) cid uid s w1)
      by assumption.
    exists (with_subscriptions
              (subscriptions w1 ++ [newSubscription E2 s (sub_id sub) uid cid])
              w1),
      (newSubscription E2 s (sub_id sub) uid cid).
    split; [reflexivity |].
    split; [| split; [reflexivity | split; [reflexivity | split]]].
    + unfold rows_of. cbn [subscriptions with_subscriptions].
      apply filter_app_last; [exact Hnone | reflexivity].
    + reflexivity.
    + subst w1. cbn [subscriptions with_subscriptions with_pendingSubscriptions
           pendingSubscriptions].
      apply lookup_insert_eq.
  - intros E sub sd w w1 r. apply handleSubscriptionCreated_consumes.
  - intros E request w k. apply POST_no_new_association.
  - intros E sub w. apply handleSubscriptionCreated_stashes.
Qed.

Lemma out_of_order_bridging_witness :
  (well_formed_checkout (Sample.checkout_by_email "ABC@x.io")
     "sub_1" "cus_1" /\
   resolveUserId Sample.E0 (Sample.checkout_by_email "ABC@x.io")
     (fresh [Sample.alice] [])
   = (fresh [Sample.alice] [], Val (inr Sample.U1)) /\
   user_count Sample.U1 (fresh [Sample.alice] []) = 1%nat /\
   fault Sample.E0 L383_select_user_by_id = false /\
   fault Sample.E0 L394_stripe_retrieve = false /\
   fault Sample.E0 L397_select_subscription = false /\
   fault Sample.E0 L442_insert = false /\
   provider_find Sample.E0 "sub_1" = Some (Sample.psub "sub_1" "active") /\
   converts (Sample.psub "sub_1" "active") = true /\
   existing_count "cus_1" (fresh [Sample.alice] []) <> 1%nat /\
   rows_of "sub_1" (fresh [Sample.alice] []) = [] /\
   checkoutSessionMap (fresh [Sample.alice] []) !! "sub_1" = None) /\
  (exists w2 row,
     deliver
       [(Sample.E1,
         Some (customer_subscription_created (Sample.psub "sub_1" "incomplete")));
        (Sample.E0,
         Some (checkout_session_completed
                 (Sample.checkout_by_email "ABC@x.io")))]
       (fresh [Sample.alice] [])
     = (w2, [acknowledged; acknowledged]) /\
     rows_of "sub_1" w2 = [row] /\
     user_id row = Sample.U1 /\
     stripe_customer_id row = "cus_1" /\
     subscriptions w2 = subscriptions (fresh [Sample.alice] []) ++ [row] /\
     pendingSubscriptions w2 !! "sub_1"
     = Some (stash (Sample.psub "sub_1" "incomplete"))) /\
  POST Sample.E0
    (Some (customer_subscription_created (Sample.psub "sub_1" "active")))
    (with_checkoutSessionMap
       {[ "sub_1" := {| userId := Sample.U1; customerId := "cus_1" |} ]}
       (fresh [Sample.alice] []))
  = (with_checkoutSessionMap
       (delete "sub_1"
          (checkoutSessionMap
             (with_subscriptions
                [newSubscription Sample.E0 (Sample.psub "sub_1" "active")
                   "sub_1" Sample.U1 "cus_1"]
                (with_checkoutSessionMap
                   {[ "sub_1" :=
                        {| userId := Sample.U1; customerId := "cus_1" |} ]}
                   (fresh [Sample.alice] [])))))
       (with_subscriptions
          [newSubscription Sample.E0 (Sample.psub "sub_1" "active")
             "sub_1" Sample.U1 "cus_1"]
          (with_checkoutSessionMap
             {[ "sub_1" := {| userId := Sample.U1; customerId := "cus_1" |} ]}
             (fresh [Sample.alice] []))),
     acknowledged).
Proof.
  assert (well_formed_checkout (Sample.checkout_by_email "ABC@x.io")
            "sub_1" "cus_1")
    as Hwf by (repeat split; discriminate).
  destruct out_of_order_bridging as (Hfirst & Hconsume & _ & _).
  split; [| split].
  - repeat split; try reflexivity; try discriminate; apply Hwf.
  - apply (Hfirst Sample.E1 Sample.E0 (Sample.psub "sub_1" "incomplete")
             (Sample.checkout_by_email "ABC@x.io") "sub_1" "cus_1" Sample.U1
             (Sample.psub "sub_1" "active") (fresh [Sample.alice] []));
      try assumption; try reflexivity.
    vm_compute. discriminate.
  - apply (Hconsume Sample.E0 (Sample.psub "sub_1" "active")
             {| userId := Sample.U1; customerId := "cus_1" |}
             _ _
             (Some (newSubscription Sample.E0 (Sample.psub "sub_1" "active")
                      "sub_1" Sample.U1 "cus_1"))).
    + reflexivity.
    + reflexivity.
Defined.

(** ** Redelivery of a checkout completion *)

(** C2, at the failing input: the first delivery stores one row for
    [sub_1] with the provider's status [active]; the second delivery of
    the same event, a minute later, is answered "blocked", a cancellation
    of [sub_1] itself is asked of the provider, and the row is not
    refreshed ([updated_at] still carries the first instant). *)
Theorem redelivered_checkout_cancels_own_subscription :
  deliver
    [(Sample.E0, Some (checkout_session_completed (Sample.checkout "sub_1")));
     (Sample.env 1699990060000 [Sample.psub "sub_1" "active"],
      Some (checkout_session_completed (Sample.checkout "sub_1")))]
    (fresh [Sample.alice] [])
  = (with_cancel_requests ["sub_1"]
       (fresh [Sample.alice]
          [ {| user_id := Sample.U1;
               stripe_customer_id := "cus_1";
               stripe_subscription_id := "sub_1";
               status := "active";
               price_id := "price_1";
               current_period_end := Iso 1700000000000;
               cancel_at_period_end := false;
               created_at := Iso 1699990000000;
               updated_at := Iso 1699990000000 |} ]),
     [acknowledged; blocked]).
Proof. reflexivity. Qed.

(** When the stored status is neither active nor trialing the redelivery
    does refresh the row, as the claim has it. *)
Example redelivered_checkout_refreshes_incomplete :
  deliver
    [(Sample.env 1699990000000 [Sample.psub "sub_1" "incomplete"],
      Some (checkout_session_completed (Sample.checkout "sub_1")));
     (Sample.env 1699990060000 [Sample.psub "sub_1" "active"],
      Some (checkout_session_completed (Sample.checkout "sub_1")))]
    (fresh [Sample.alice] [])
  = (fresh [Sample.alice]
       [ {| user_id := Sample.U1;
            stripe_customer_id := "cus_1";
            stripe_subscription_id := "sub_1";
            status := "active";
            price_id := "price_1";
            current_period_end := Iso 1700000000000;
            cancel_at_period_end := false;
            created_at := Iso 1699990000000;
            updated_at := Iso 1699990060000 |} ],
     [acknowledged; acknowledged]).
Proof. reflexivity. Qed.

(** ** The single-active-subscription rule *)

(** C3, at the failing input: customer [cus_1] holds an active and a
    trialing row; the checkout completion for a third subscription is not
    blocked: a third row is written, no cancellation is asked for, and the
    event is acknowledged as a success. *)
Theorem checkout_with_two_active_rows_not_blocked :
  existing_count "cus_1"
    (fresh [Sample.alice]
       [Sample.row "sub_a" "active"; Sample.row "sub_b" "trialing"])
  = 2%nat /\
  POST (Sample.env 1699990000000 [Sample.psub "sub_c" "active"])
    (Some (checkout_session_completed (Sample.checkout "sub_c")))
    (fresh [Sample.alice]
       [Sample.row "sub_a" "active"; Sample.row "sub_b" "trialing"])
  = (fresh [Sample.alice]
       [Sample.row "sub_a" "active"; Sample.row "sub_b" "trialing";
        newSubscription
          (Sample.env 1699990000000 [Sample.psub "sub_c" "active"])
          (Sample.psub "sub_c" "active") "sub_c" Sample.U1 "cus_1"],
     acknowledged).
Proof. split; reflexivity. Qed.

(** The handler itself leads to such a table: a first subscription stored
    as [past_due], a second one stored as [active], the first one reported
    [active] again by a subscription-updated event; the fourth request is
    then the checkout completion that is let through. *)
Example two_active_rows_reached_by_the_handler :
  let run :=
    deliver
      [(Sample.env 1699990000000 [Sample.psub "sub_a" "past_due"],
        Some (checkout_session_completed (Sample.checkout "sub_a")));
       (Sample.env 1699990010000 [Sample.psub "sub_b" "active"],
        Some (checkout_session_completed (Sample.checkout "sub_b")));
       (Sample.env 1699990020000 [],
        Some (customer_subscription_updated (Sample.psub "sub_a" "active")));
       (Sample.env 1699990030000 [Sample.psub "sub_c" "active"],
        Some (checkout_session_completed (Sample.checkout "sub_c")))]
      (fresh [Sample.alice] []) in
  map (fun r => (stripe_subscription_id r, status r)) (subscriptions (fst run))
  = [("sub_a", "active"); ("sub_b", "active"); ("sub_c", "active")] /\
  cancel_requests (fst run) = [] /\
  snd run = [acknowledged; acknowledged; acknowledged; acknowledged].
Proof. vm_compute. repeat split; reflexivity. Qed.

(** ** Identity by email *)

(** Without a well-shaped reference and with an email lookup that finds
    nobody, the event is rejected with status 400 and nothing is written. *)
Lemma POST_identity_rejected E session sid cid w :
  well_formed_checkout session sid cid ->
  uuid_regex_match (as_string (client_reference_id session)) = false ->
  (truthy (session_email session) = false \/
   findUserIdByEmail E (as_string (session_email session)) w = (w, Val None)) ->
  exists r,
    POST E (Some (checkout_session_completed session)) w = (w, r) /\
    identity_rejection r /\ resp_status r = 400.
Proof.
  intros Hwf Hshape Hemail.
  destruct (resolveUserId_unresolved E session w Hshape Hemail)
    as (r & Hwho & Hrej & Hst).
  apply well_formed_truthy in Hwf as (Hs & Hc & _ & _).
  exists r. unfold POST, dispatch.
  rewrite (handleCheckoutSessionCompleted_valid _ _ _ _ Hs Hc Hwho).
  auto.
Qed.

(** C4, at the failing input: the session has no [client_reference_id]
    and its email [a_c@x.io] is, without regard to case, the email of no
    user; yet the lookup takes the underscore for a wildcard, finds the
    user of [abc@x.io], and the subscription is stored for that user. *)
Theorem wildcard_email_resolves_to_another_user :
  client_reference_id (Sample.checkout_by_email "a_c@x.io") = None /\
  forallb (fun u => negb (eq_ci (u_email u) "a_c@x.io")) [Sample.alice]
  = true /\
  POST Sample.E0
    (Some (checkout_session_completed (Sample.checkout_by_email "a_c@x.io")))
    (fresh [Sample.alice] [])
  = (fresh [Sample.alice]
       [newSubscription Sample.E0 (Sample.psub "sub_1" "active")
          "sub_1" (u_id Sample.alice) "cus_1"],
     acknowledged).
Proof. repeat split; reflexivity. Qed.

(** The same session with an email that holds no wildcard and belongs to
    no user is rejected, as the claim has it. *)
Example unknown_email_rejected :
  POST Sample.E0
    (Some (checkout_session_completed (Sample.checkout_by_email "abd@x.io")))
    (fresh [Sample.alice] [])
  = (fresh [Sample.alice] [], json_status (ErrorBody "User not found") 400).
Proof. reflexivity. Qed.

(** ** Following a relation through the writes, with what each write is *)

Section Writes.

Variable R : World -> World -> Prop.
Hypothesis R_refl : forall w, R w w.
Hypothesis R_trans : forall a b c, R a b -> R b c -> R a c.
Hypothesis R_refresh :
  forall f id w,
    (forall r, same_identity r (f r)) ->
    R w (with_subscriptions (update_rows f id (subscriptions w)) w).
Hypothesis R_new :
  forall E s sid uid cid w,
    sid <> "" -> uid <> "" -> cid <> "" ->
    user_count uid w = 1%nat ->
    data (single (rows_of sid w)) = None ->
    R w (with_subscriptions
           (subscriptions w ++ [newSubscription E s sid uid cid]) w).
Hypothesis R_pending : forall m w, R w (with_pendingSubscriptions m w).
Hypothesis R_cancel : forall l w, R w (with_cancel_requests l w).
Hypothesis R_delete :
  forall k w,
    R w (with_checkoutSessionMap (delete k (checkoutSessionMap w)) w).

Lemma writes_update E s f id :
  (forall r, same_identity r (f r)) ->
  keeps R (subscriptions_update E s f id).
Proof.
  intros Hf w. unfold subscriptions_update.
  destruct (fault E s); simpl; [apply R_refl | apply R_refresh; exact Hf].
Qed.

Lemma writes_createSubscription E sid uid cid :
  keeps R (createSubscription E sid uid cid).
Proof.
  intros w. rewrite createSubscription_eval.
  destruct (String.eqb_spec sid "") as [| Hs]; [apply R_refl |].
  destruct (String.eqb_spec uid "") as [| Hu]; [apply R_refl |].
  destruct (String.eqb_spec cid "") as [| Hc]; [apply R_refl |].
  cbn [orb].
  destruct (fault E L383_select_user_by_id); [apply R_refl |].
  destruct (List.filter (fun u => String.eqb (u_id u) uid) (users w))
    as [| u [| u' us]] eqn:Husers; try apply R_refl.
  cbn [data single].
  destruct (fault E L394_stripe_retrieve); [apply R_refl |].
  destruct (provider_find E sid) as [s |]; [| apply R_refl].
  destruct (fault E L397_select_subscription); [apply R_refl |].
  destruct (date_in_range _); cbn [negb]; [| apply R_refl].
  destruct (data (single (rows_of sid w))) eqn:Hrows.
  - destruct (fault E L410_update); [apply R_refl |].
    apply R_refresh. intros r. apply refresh_fields_spec.
  - destruct (fault E L442_insert); [apply R_refl |].
    apply R_new; try assumption.
    unfold user_count. rewrite Husers. reflexivity.
Qed.

Local Ltac w_ret := apply (keeps_ret R R_refl).
Local Ltac w_throw := apply (keeps_throw R R_refl).
Local Ltac w_gets := apply (keeps_gets R R_refl).
Local Ltac w_bind := apply (keeps_bind R R_trans).
Local Ltac w_try := apply (keeps_try_catch R R_trans).

Lemma writes_reconcileCheckout E session uid :
  keeps R (reconcileCheckout E session uid).
Proof.
  unfold reconcileCheckout.
  w_try; [| intros; w_ret].
  w_bind; [apply (keeps_checkExistingSubscription R R_refl R_trans) |].
  intros b. apply keeps_if.
  - w_bind; [| intros; w_ret].
    apply keeps_if; [apply (keeps_cancel R R_refl R_trans R_cancel) | w_ret].
  - w_bind; [| intros; w_ret].
    w_try.
    + w_bind; [apply writes_createSubscription | intros; w_ret].
    + intros e. w_bind; [| intros; w_throw].
      w_try; [| intros; w_ret].
      w_bind; [apply (keeps_retrieve R R_refl) | intros; w_ret].
Qed.

Lemma writes_dispatch E event : keeps R (dispatch E event).
Proof.
  destruct event as [session | sub | sub | sub | sub | sub | sub | ty]; simpl.
  - unfold handleCheckoutSessionCompleted.
    apply keeps_if; [w_ret |].
    apply keeps_if; [w_ret |].
    w_bind; [apply (keeps_resolveUserId R R_refl R_trans) |].
    intros [r | uid]; [w_ret | apply writes_reconcileCheckout].
  - unfold handleSubscriptionCreated.
    w_bind; [w_gets |].
    intros [sd |].
    + w_bind; [apply writes_createSubscription |]. intros _.
      w_bind; [| intros; w_ret].
      apply keeps_modify. intros w. apply R_delete.
    + w_bind; [| intros; w_ret].
      apply keeps_modify. intros w. apply R_pending.
  - w_bind; [apply (keeps_toISOString R R_refl) | intros periodEnd].
    w_bind; [| intros; w_ret].
    apply writes_update; intros r; unfold same_identity; simpl; tauto.
  - w_bind; [apply (keeps_toISOString R R_refl) | intros periodEnd].
    w_bind; [| intros; w_ret].
    apply writes_update; intros r; unfold same_identity; simpl; tauto.
  - w_bind; [apply (keeps_toISOString R R_refl) | intros periodEnd].
    w_bind; [| intros; w_ret].
    apply writes_update; intros r; unfold same_identity; simpl; tauto.
  - w_bind; [apply (keeps_toISOString R R_refl) | intros periodEnd].
    w_bind; [| intros; w_ret].
    apply writes_update; intros r; unfold same_identity; simpl; tauto.
  - w_bind; [| intros; w_ret].
    apply writes_update; intros r; apply deleted_fields_spec.
  - w_ret.
Qed.

Lemma POST_writes E request w : R w (fst (POST E request w)).
Proof.
  unfold POST. destruct request as [event |]; [| apply R_refl].
  pose proof (writes_dispatch E event w) as H.
  destruct (dispatch E event w) as [w' [[r |] | e]]; exact H.
Qed.

Lemma deliver_writes rs : forall w, R w (fst (deliver rs w)).
Proof.
  induction rs as [| [E request] rest IH]; intros w; simpl; [apply R_refl |].
  pose proof (POST_writes E request w) as H1.
  destruct (POST E request w) as [w1 r]. specialize (IH w1).
  destruct (deliver rest w1) as [w2 l]. simpl in *.
  eapply R_trans; eassumption.
Qed.

End Writes.

(** ** What one request does to the table *)

Lemma createSubscription_table E sid uid cid w :
  subscriptions (fst (createSubscription E sid uid cid w)) = subscriptions w \/
  (exists s,
     subscriptions (fst (createSubscription E sid uid cid w))
     = update_rows (refresh_fields E s) sid (subscriptions w)) \/
  (exists row,
     subscriptions (fst (createSubscription E sid uid cid w))
     = subscriptions w ++ [row]).
Proof.
  rewrite createSubscription_eval.
  repeat match goal with
         | |- context [if ?b then _ else _] => destruct b
         | |- context [match ?x with Some _ => _ | None => _ end] => destruct x
         end;
    simpl; eauto.
Qed.

Lemma POST_table E request w :
  subscriptions (fst (POST E request w)) = subscriptions w \/
  (exists f id,
     (forall r, same_identity r (f r)) /\
     subscriptions (fst (POST E request w))
     = update_rows f id (subscriptions w)) \/
  (exists row,
     subscriptions (fst (POST E request w)) = subscriptions w ++ [row]).
Proof.
  destruct request as [[session | sub | sub | sub | sub | sub | sub | ty] |];
    try (left; reflexivity).
  - unfold POST, dispatch, handleCheckoutSessionCompleted.
    destruct (truthy (subscription session)) eqn:Hs; [| left; reflexivity].
    destruct (truthy (customer session)) eqn:Hc; [| left; reflexivity].
    cbn [negb]. unfold bind.
    destruct (resolveUserId_cases E session w) as [who [Hwho _]].
    rewrite Hwho. destruct who as [r | uid]; [left; reflexivity |].
    rewrite reconcileCheckout_eval.
    destruct (negb (fault E L39_select_existing) && _).
    + rewrite Hs. left; reflexivity.
    + pose proof (createSubscription_table E
                    (as_string (subscription session)) uid
                    (as_string (customer session)) w) as H.
      destruct (createSubscription E _ uid _ w) as [w' [r | e]]; simpl in *;
        (destruct H as [H | [[s H] | H]];
         [left; exact H
         | right; left; exists (refresh_fields E s), (as_string (subscription session));
           split; [intros r0; apply refresh_fields_spec | exact H]
         | right; right; exact H]).
  - unfold POST, dispatch, handleSubscriptionCreated, bind, gets.
    destruct (checkoutSessionMap w !! sub_id sub) as [sd |];
      [| left; reflexivity].
    pose proof (createSubscription_table E (sub_id sub) (userId sd)
                  (customerId sd) w) as H.
    destruct (createSubscription E _ _ _ w) as [w' [r | e]]; simpl in *;
      (destruct H as [H | [[s H] | H]];
       [left; exact H
       | right; left; exists (refresh_fields E s), (sub_id sub);
         split; [intros r0; apply refresh_fields_spec | exact H]
       | right; right; exact H]).
  - unfold POST, dispatch. rewrite handleSubscriptionUpdated_eval.
    destruct (date_in_range _); [| left; reflexivity].
    destruct (fault E L308_update); [left; reflexivity |].
    right; left. exists (updated_fields E sub), (sub_id sub).
    split; [intros r; unfold same_identity; simpl; tauto | reflexivity].
  - unfold POST, dispatch. rewrite handleSubscriptionUpdated_eval.
    destruct (date_in_range _); [| left; reflexivity].
    destruct (fault E L308_update); [left; reflexivity |].
    right; left. exists (updated_fields E sub), (sub_id sub).
    split; [intros r; unfold same_identity; simpl; tauto | reflexivity].
  - unfold POST, dispatch. rewrite handleSubscriptionUpdated_eval.
    destruct (date_in_range _); [| left; reflexivity].
    destruct (fault E L308_update); [left; reflexivity |].
    right; left. exists (updated_fields E sub), (sub_id sub).
    split; [intros r; unfold same_identity; simpl; tauto | reflexivity].
  - unfold POST, dispatch. rewrite handleSubscriptionUpdated_eval.
    destruct (date_in_range _); [| left; reflexivity].
    destruct (fault E L308_update); [left; reflexivity |].
    right; left. exists (updated_fields E sub), (sub_id sub).
    split; [intros r; unfold same_identity; simpl; tauto | reflexivity].
  - unfold POST, dispatch. rewrite handleSubscriptionDeleted_eval.
    destruct (fault E L324_update); [left; reflexivity |].
    right; left. exists (deleted_fields E sub), (sub_id sub).
    split; [intros r; apply deleted_fields_spec | reflexivity].
Qed.

Lemma POST_table_length E request w :
  (length (subscriptions w) <= length (subscriptions (fst (POST E request w)))
   <= S (length (subscriptions w)))%nat.
Proof.
  destruct (POST_table E request w) as [H | [(f & id & _ & H) | [row H]]];
    rewrite H.
  - lia.
  - rewrite update_rows_length. lia.
  - rewrite length_app. simpl. lia.
Qed.

(** ** Rows are kept *)

Lemma same_identity_refl r : same_identity r r.
Proof. unfold same_identity. tauto. Qed.

Lemma same_identity_trans a b c :
  same_identity a b -> same_identity b c -> same_identity a c.
Proof. unfold same_identity. intuition congruence. Qed.

Lemma Forall2_same_identity_refl rows : Forall2 same_identity rows rows.
Proof. induction rows; constructor; auto using same_identity_refl. Qed.

Lemma grows_from_refl w : grows_from w w.
Proof.
  exists (subscriptions w), []. rewrite app_nil_r.
  split; [reflexivity | apply Forall2_same_identity_refl].
Qed.

Lemma grows_from_trans a b c :
  grows_from a b -> grows_from b c -> grows_from a c.
Proof.
  intros (k1 & a1 & Hb & H1) (k2 & a2 & Hc & H2).
  rewrite Hb in H2. apply Forall2_app_inv_l in H2 as (k2a & k2b & Ha & _ & ->).
  exists k2a, (k2b ++ a2). split.
  - rewrite Hc, app_assoc. reflexivity.
  - eapply Forall2_trans; [| exact H1 | exact Ha].
    intros x y z. apply same_identity_trans.
Qed.

Lemma grows_from_refresh f id w :
  (forall r, same_identity r (f r)) ->
  grows_from w (with_subscriptions (update_rows f id (subscriptions w)) w).
Proof.
  intros Hf. exists (update_rows f id (subscriptions w)), [].
  rewrite app_nil_r. split; [reflexivity |].
  eapply Forall2_impl; [apply update_rows_pointwise |].
  intros old new H. simpl in H.
  destruct (by_subscription_id id old); subst new;
    [apply Hf | apply same_identity_refl].
Qed.

Lemma grows_from_same_table w w' :
  subscriptions w' = subscriptions w -> grows_from w w'.
Proof.
  intros H. exists (subscriptions w), []. rewrite app_nil_r.
  split; [exact H | apply Forall2_same_identity_refl].
Qed.

Lemma deliver_table_length rs : forall w,
  (length (subscriptions (fst (deliver rs w)))
   <= length (subscriptions w) + length rs)%nat.
Proof.
  induction rs as [| [E request] rest IH]; intros w; simpl; [lia |].
  pose proof (POST_table_length E request w) as H1.
  destruct (POST E request w) as [w1 r]. specialize (IH w1).
  destruct (deliver rest w1) as [w2 l]. simpl in *. lia.
Qed.

(** X1: whatever is delivered and whatever fails, no stored row is ever
    removed or moved, and no stored row changes its user, customer,
    subscription identifier, price or creation time; the table only grows
    at its end, by at most one row for each request. *)
Theorem rows_are_kept rs w :
  grows_from w (fst (deliver rs w)) /\
  (length (subscriptions (fst (deliver rs w)))
   <= length (subscriptions w) + length rs)%nat.
Proof.
  split; [| apply deliver_table_length].
  apply (deliver_writes grows_from grows_from_refl grows_from_trans).
  - apply grows_from_refresh.
  - intros. exists (subscriptions w0), [newSubscription E s sid uid cid].
    split; [reflexivity | apply Forall2_same_identity_refl].
  - intros; apply grows_from_same_table; reflexivity.
  - intros; apply grows_from_same_table; reflexivity.
  - intros; apply grows_from_same_table; reflexivity.
Qed.

(** ** Rows stay sound *)

Lemma first_price_or_unknown_not_empty items :
  first_price_or_unknown items <> "".
Proof.
  destruct items as [| p items]; simpl; [discriminate |].
  destruct (String.eqb_spec p ""); [discriminate | assumption].
Qed.

Lemma sound_row_same_users w w' r :
  users w' = users w -> sound_row w r -> sound_row w' r.
Proof. unfold sound_row, user_count. intros ->. tauto. Qed.

Lemma sound_row_same_identity w old new :
  same_identity old new -> sound_row w old -> sound_row w new.
Proof.
  unfold sound_row. intros (-> & -> & -> & -> & _). tauto.
Qed.

Lemma keeps_sound_rows_refl w : keeps_sound_rows w w.
Proof. split; [reflexivity | tauto]. Qed.

Lemma keeps_sound_rows_trans a b c :
  keeps_sound_rows a b -> keeps_sound_rows b c -> keeps_sound_rows a c.
Proof. intros [H1 H2] [H3 H4]. split; [congruence | tauto]. Qed.

Lemma keeps_sound_rows_same_table w w' :
  users w' = users w -> subscriptions w' = subscriptions w ->
  keeps_sound_rows w w'.
Proof.
  intros Hu Hs. split; [exact Hu |]. unfold sound_rows. rewrite Hs.
  intros H. eapply Forall_impl; [exact H |].
  intros r. apply sound_row_same_users. exact Hu.
Qed.

Lemma keeps_sound_rows_refresh f id w :
  (forall r, same_identity r (f r)) ->
  keeps_sound_rows w
    (with_subscriptions (update_rows f id (subscriptions w)) w).
Proof.
  intros Hf. split; [reflexivity |]. unfold sound_rows. simpl.
  unfold update_rows. rewrite Forall_map. intros H.
  eapply Forall_impl; [exact H |]. intros r Hr. simpl.
  destruct (String.eqb (stripe_subscription_id r) id).
  - eapply sound_row_same_identity; [apply Hf |].
    eapply sound_row_same_users; [| exact Hr]. reflexivity.
  - eapply sound_row_same_users; [| exact Hr]. reflexivity.
Qed.

Lemma keeps_sound_rows_new E s sid uid cid w :
  sid <> "" -> uid <> "" -> cid <> "" ->
  user_count uid w = 1%nat ->
  keeps_sound_rows w
    (with_subscriptions
       (subscriptions w ++ [newSubscription E s sid uid cid]) w).
Proof.
  intros Hs Hu Hc Hone. split; [reflexivity |]. unfold sound_rows. simpl.
  intros H. apply Forall_app. split.
  - eapply Forall_impl; [exact H |]. intros r.
    apply sound_row_same_users. reflexivity.
  - constructor; [| constructor].
    unfold sound_row. simpl. repeat split; try assumption.
    apply first_price_or_unknown_not_empty.
Qed.

Lemma deliver_keeps_sound_rows rs w : keeps_sound_rows w (fst (deliver rs w)).
Proof.
  apply (deliver_writes keeps_sound_rows keeps_sound_rows_refl
           keeps_sound_rows_trans keeps_sound_rows_refresh).
  - intros. apply keeps_sound_rows_new; assumption.
  - intros; apply keeps_sound_rows_same_table; reflexivity.
  - intros; apply keeps_sound_rows_same_table; reflexivity.
  - intros; apply keeps_sound_rows_same_table; reflexivity.
Qed.

(** X2: no orphan rows.  If every stored row belongs to exactly one
    stored user and has a non-empty user, customer, subscription and price
    identifier, the same holds after any sequence of deliveries, whatever
    fails: [createSubscription] inserts only after it has found the user,
    and with a price or the word [unknown]. *)
Theorem rows_stay_sound rs w :
  sound_rows w -> sound_rows (fst (deliver rs w)).
Proof. apply deliver_keeps_sound_rows. Qed.

Lemma rows_stay_sound_witness :
  sound_rows (fresh [Sample.alice] []) /\
  sound_rows
    (fst (deliver
            [(Sample.E0,
              Some (checkout_session_completed (Sample.checkout "sub_1")));
             (Sample.E1,
              Some (customer_subscription_updated
                      (Sample.psub "sub_1" "past_due")))]
            (fresh [Sample.alice] []))).
Proof.
  assert (sound_rows (fresh [Sample.alice] [])) as H by constructor.
  split; [exact H |].
  apply (rows_stay_sound _ (fresh [Sample.alice] []) H).
Defined.

(** X3: one row for each subscription.  If no two stored rows share a
    subscription identifier, no sequence of deliveries makes two rows
    share one, whatever fails: a lookup by subscription identifier
    finds at most one row. *)
Theorem one_row_per_subscription rs w :
  unique_ids w ->
  unique_ids (fst (deliver rs w)) /\
  forall id, (length (rows_of id (fst (deliver rs w))) <= 1)%nat.
Proof.
  intros H. pose proof (deliver_unique_ids rs w H) as H'.
  split; [exact H' |]. intros id.
  destruct (rows_of_at_most_one id _ H') as [-> | [r ->]]; simpl; lia.
Qed.

Lemma one_row_per_subscription_witness :
  unique_ids (fresh [Sample.alice] []) /\
  (length
     (rows_of "sub_1"
        (fst (deliver
                [(Sample.E0,
                  Some (checkout_session_completed (Sample.checkout "sub_1")));
                 (Sample.env 1699990060000 [Sample.psub "sub_1" "incomplete"],
                  Some (checkout_session_completed (Sample.checkout "sub_1")))]
                (fresh [Sample.alice] [])))) <= 1)%nat.
Proof.
  assert (unique_ids (fresh [Sample.alice] [])) as H by constructor.
  split; [exact H |].
  apply (one_row_per_subscription _ (fresh [Sample.alice] []) H).
Defined.

(** ** Answers and rejections *)

Lemma identity_rejection_status r : identity_rejection r -> resp_status r = 400.
Proof. intros [-> | [-> | [-> | ->]]]; reflexivity. Qed.

(** X4: every answer has status 200 or 400, and a request that is not
    answered with 200 has changed nothing: no row, no entry of either map,
    no cancellation request. *)
Theorem rejections_change_nothing E request w :
  (resp_status (snd (POST E request w)) = 200 \/
   resp_status (snd (POST E request w)) = 400) /\
  (resp_status (snd (POST E request w)) <> 200 ->
   fst (POST E request w) = w).
Proof.
  destruct request as [[session | sub | sub | sub | sub | sub | sub | ty] |];
    try (unfold POST, dispatch;
         first [rewrite handleSubscriptionUpdated_eval;
                destruct (date_in_range _)
               | rewrite handleSubscriptionDeleted_eval];
         simpl;
         (split;
          [first [left; reflexivity | right; reflexivity]
          | intros H; first [reflexivity | exfalso; apply H; reflexivity]])).
  - unfold POST, dispatch, handleCheckoutSessionCompleted.
    destruct (truthy (subscription session)) eqn:Hs;
      [| simpl; split; [right; reflexivity | reflexivity]].
    destruct (truthy (customer session)) eqn:Hc;
      [| simpl; split; [right; reflexivity | reflexivity]].
    cbn [negb]. unfold bind.
    destruct (resolveUserId_cases E session w) as [who [Hwho Hrej]].
    rewrite Hwho. destruct who as [r | uid].
    + simpl. split; [right; apply identity_rejection_status; exact Hrej |].
      reflexivity.
    + destruct (reconcileCheckout_swallows E session uid w)
        as (w' & o & Heq & Hst).
      rewrite Heq. destruct o as [r |]; simpl.
      * split; [left; exact Hst | intros H; congruence].
      * split; [left; reflexivity | intros H; congruence].
  - unfold POST, dispatch, handleSubscriptionCreated, bind, gets.
    destruct (checkoutSessionMap w !! sub_id sub) as [sd |].
    + destruct (createSubscription E _ _ _ w) as [w' [r | e]] eqn:Hc; simpl.
      * split; [left; reflexivity | intros H; congruence].
      * split; [right; reflexivity |]. intros _.
        eapply createSubscription_throw_unchanged. exact Hc.
    + simpl. split; [left; reflexivity | intros H; congruence].
  - simpl. split; [left; reflexivity | intros H; congruence].
  - simpl. split; [right; reflexivity | reflexivity].
Qed.

Lemma rejections_change_nothing_witness :
  resp_status
    (snd (POST Sample.E0
            (Some (checkout_session_completed
                     (Sample.checkout_by_email "abd@x.io")))
            (fresh [Sample.alice] [Sample.row "sub_9" "active"]))) <> 200 /\
  fst (POST Sample.E0
         (Some (checkout_session_completed
                  (Sample.checkout_by_email "abd@x.io")))
         (fresh [Sample.alice] [Sample.row "sub_9" "active"]))
  = fresh [Sample.alice] [Sample.row "sub_9" "active"].
Proof.
  assert (resp_status
            (snd (POST Sample.E0
                    (Some (checkout_session_completed
                             (Sample.checkout_by_email "abd@x.io")))
                    (fresh [Sample.alice] [Sample.row "sub_9" "active"])))
          <> 200) as H by (vm_compute; discriminate).
  split; [exact H |].
  apply (rejections_change_nothing Sample.E0 _
           (fresh [Sample.alice] [Sample.row "sub_9" "active"])).
  exact H.
Defined.

(** ** Cancellations *)

Lemma createSubscription_cancel_requests E sid uid cid w :
  cancel_requests (fst (createSubscription E sid uid cid w))
  = cancel_requests w.
Proof.
  apply (keeps_createSubscription
           (fun a b => cancel_requests b = cancel_requests a));
    intros; reflexivity.
Qed.

(** X5: a request leaves the list of cancellation requests as it was,
    unless it is a checkout completion whose customer has exactly one
    active or trialing row; then exactly one request is added, for the
    event's own subscription, no row is written and the answer has
    status 200. *)
Theorem cancellation_only_for_duplicates E request w :
  cancel_requests (fst (POST E request w)) = cancel_requests w \/
  exists session,
    request = Some (checkout_session_completed session) /\
    cancel_requests (fst (POST E request w))
    = cancel_requests w ++ [as_string (subscription session)] /\
    existing_count (as_string (customer session)) w = 1%nat /\
    subscriptions (fst (POST E request w)) = subscriptions w /\
    resp_status (snd (POST E request w)) = 200.
Proof.
  destruct request as [[session | sub | sub | sub | sub | sub | sub | ty] |];
    try (left; unfold POST, dispatch;
         first [rewrite handleSubscriptionUpdated_eval;
                destruct (date_in_range _); [| reflexivity]
               | rewrite handleSubscriptionDeleted_eval];
         simpl; destruct (fault E _); reflexivity);
    try (left; reflexivity).
  - unfold POST, dispatch, handleCheckoutSessionCompleted.
    destruct (truthy (subscription session)) eqn:Hs; [| left; reflexivity].
    destruct (truthy (customer session)) eqn:Hc; [| left; reflexivity].
    cbn [negb]. unfold bind.
    destruct (resolveUserId_cases E session w) as [who [Hwho _]].
    rewrite Hwho. destruct who as [r | uid]; [left; reflexivity |].
    rewrite reconcileCheckout_eval, Hs.
    destruct (negb (fault E L39_select_existing)) eqn:Hf;
      [| left; simpl;
         pose proof (createSubscription_cancel_requests E
                       (as_string (subscription session)) uid
                       (as_string (customer session)) w) as H;
         destruct (createSubscription E _ uid _ w) as [w' [r | e]];
         exact H].
    destruct (Nat.eqb_spec (existing_count (as_string (customer session)) w) 1)
      as [Hone | Hne].
    + right. exists session. simpl.
      split; [reflexivity |]. split; [reflexivity |].
      split; [exact Hone |]. split; [reflexivity |].
      destruct (fault E L228_stripe_cancel); [reflexivity |].
      destruct (provider_find E _); reflexivity.
    + left. simpl.
      pose proof (createSubscription_cancel_requests E
                    (as_string (subscription session)) uid
                    (as_string (customer session)) w) as H.
      destruct (createSubscription E _ uid _ w) as [w' [r | e]]; exact H.
  - left. unfold POST, dispatch, handleSubscriptionCreated, bind, gets.
    destruct (checkoutSessionMap w !! sub_id sub) as [sd |]; [| reflexivity].
    pose proof (createSubscription_cancel_requests E (sub_id sub) (userId sd)
                  (customerId sd) w) as H.
    destruct (createSubscription E _ _ _ w) as [w' [r | e]]; exact H.
Qed.

(** ** Events that overwrite the status *)

Lemma updated_fields_spec E sub r :
  same_identity r (updated_fields E sub r) /\
  marked_updated E sub (updated_fields E sub r).
Proof. unfold same_identity, marked_updated. simpl. tauto. Qed.

(** X6: a subscription-updated, pending-update-applied,
    pending-update-expired or trial-will-end event touches nothing but the
    table.  When its period end is a time [Date] can hold it is
    acknowledged, and if the store accepts the update every row with the
    event's subscription identifier gets the event's status and
    cancel-at-period-end flag, the event's period end in milliseconds and
    the processing time as updated-timestamp, its other fields and all
    other rows staying as they were; if the store refuses, nothing
    changes.  When the period end is out of that range the handler answers
    400 with the generic failure and nothing changes. *)
Theorem update_events_refresh_matching_rows E event sub w :
  is_update_event event sub ->
  fst (POST E (Some event) w)
  = with_subscriptions (subscriptions (fst (POST E (Some event) w))) w /\
  (converts sub = true ->
   snd (POST E (Some event) w) = acknowledged /\
   (fault E L308_update = false ->
    Forall2
      (fun old new =>
         same_identity old new /\
         if by_subscription_id (sub_id sub) old
         then marked_updated E sub new
         else new = old)
      (subscriptions w) (subscriptions (fst (POST E (Some event) w)))) /\
   (fault E L308_update = true -> fst (POST E (Some event) w) = w)) /\
  (converts sub = false ->
   POST E (Some event) w = (w, handler_failed "Invalid time value")).
Proof.
  intros Hev. unfold POST, converts.
  assert (dispatch E event = handleSubscriptionUpdated E sub) as ->.
  { destruct Hev as [-> | [-> | [-> | ->]]]; reflexivity. }
  rewrite handleSubscriptionUpdated_eval.
  destruct (date_in_range _); simpl.
  - split; [| split; [| discriminate]].
    + destruct (fault E L308_update); simpl;
        [symmetry; apply with_subscriptions_same | reflexivity].
    + intros _. split; [reflexivity |]. split.
      * intros ->. simpl.
        eapply Forall2_impl; [apply update_rows_pointwise |].
        intros old new H. simpl in H.
        destruct (by_subscription_id (sub_id sub) old); subst new.
        -- apply updated_fields_spec.
        -- split; [apply same_identity_refl | reflexivity].
      * intros ->. reflexivity.
  - split; [symmetry; apply with_subscriptions_same |].
    split; [discriminate | reflexivity].
Qed.

Lemma update_events_refresh_matching_rows_witness :
  is_update_event
    (customer_subscription_updated (Sample.psub "sub_1" "past_due"))
    (Sample.psub "sub_1" "past_due") /\
  converts (Sample.psub "sub_1" "past_due") = true /\
  fault Sample.E1 L308_update = false /\
  Forall2
    (fun old new =>
       same_identity old new /\
       if by_subscription_id "sub_1" old
       then marked_updated Sample.E1 (Sample.psub "sub_1" "past_due") new
       else new = old)
    (subscriptions Sample.two_rows)
    (subscriptions
       (fst (POST Sample.E1
               (Some (customer_subscription_updated
                        (Sample.psub "sub_1" "past_due")))
               Sample.two_rows))).
Proof.
  split; [left; reflexivity |]. split; [reflexivity |].
  split; [reflexivity |].
  apply (update_events_refresh_matching_rows Sample.E1 _
           (Sample.psub "sub_1" "past_due") Sample.two_rows);
    [left; reflexivity | reflexivity | reflexivity].
Defined.

Lemma update_rows_overwrite f g id rows :
  (forall r, stripe_subscription_id (f r) = stripe_subscription_id r) ->
  (forall r, g (f r) = g r) ->
  update_rows g id (update_rows f id rows) = update_rows g id rows.
Proof.
  intros Hid Hg. unfold update_rows. rewrite map_map.
  apply map_ext. intros r.
  destruct (String.eqb (stripe_subscription_id r) id) eqn:Heq.
  - rewrite Hid, Heq. apply Hg.
  - rewrite Heq. reflexivity.
Qed.

Lemma updated_fields_reads_identity E sub r r' :
  same_identity r r' -> updated_fields E sub r' = updated_fields E sub r.
Proof.
  unfold same_identity, updated_fields, updated_fields_at.
  intros (-> & -> & -> & -> & ->). reflexivity.
Qed.

Lemma deleted_fields_reads_identity E sub r r' :
  same_identity r r' -> deleted_fields E sub r' = deleted_fields E sub r.
Proof.
  unfold same_identity, deleted_fields.
  intros (-> & -> & -> & -> & ->). reflexivity.
Qed.

Lemma status_fields_spec E event sub r :
  same_identity r (status_fields E event sub r).
Proof.
  destruct event; simpl; first [apply updated_fields_spec
                               | apply deleted_fields_spec].
Qed.

Lemma status_fields_reads_identity E event sub r r' :
  same_identity r r' ->
  status_fields E event sub r' = status_fields E event sub r.
Proof.
  destruct event; simpl; first [apply updated_fields_reads_identity
                               | apply deleted_fields_reads_identity].
Qed.

(** What a status event does, in one equation. *)
Lemma POST_status_event E event sub w :
  is_status_event event sub ->
  POST E (Some event) w =
  if status_converts event sub then
    (if fault E (status_site event) then w
     else with_subscriptions
            (update_rows (status_fields E event sub) (sub_id sub)
               (subscriptions w)) w,
     acknowledged)
  else (w, handler_failed "Invalid time value").
Proof.
  intros [[-> | [-> | [-> | ->]]] | ->]; unfold POST, dispatch;
    first [rewrite handleSubscriptionUpdated_eval
          | rewrite handleSubscriptionDeleted_eval];
    unfold status_converts, converts;
    try destruct (date_in_range _); reflexivity.
Qed.

(** X7: the last status event processed wins.  Of two events of the
    updating kinds or the deleted kind for the same subscription, the
    second, when its period end converts and the store accepts it, leaves
    the world exactly as if the first had never been processed, whichever
    of the two the provider sent first and whether or not the first was
    applied. *)
Theorem last_status_event_wins E1 E2 e1 e2 sub1 sub2 w :
  is_status_event e1 sub1 ->
  is_status_event e2 sub2 ->
  sub_id sub1 = sub_id sub2 ->
  status_converts e2 sub2 = true ->
  fault E2 (status_site e2) = false ->
  fst (deliver [(E1, Some e1); (E2, Some e2)] w)
  = fst (POST E2 (Some e2) w).
Proof.
  intros H1 H2 Hid Hconv Hok. unfold deliver.
  rewrite (POST_status_event E1 e1 sub1 w H1).
  destruct (status_converts e1 sub1);
    [| destruct (POST E2 (Some e2) w); reflexivity].
  destruct (fault E1 (status_site e1)).
  - destruct (POST E2 (Some e2) w); reflexivity.
  - rewrite !(POST_status_event E2 e2 sub2 _ H2), Hconv, Hok. simpl.
    rewrite Hid.
    rewrite update_rows_overwrite; [reflexivity | |].
    + intros r. apply (status_fields_spec E1 e1 sub1 r).
    + intros r. apply status_fields_reads_identity. apply status_fields_spec.
Qed.

Lemma last_status_event_wins_witness :
  status_converts
    (customer_subscription_updated (Sample.psub "sub_1" "active"))
    (Sample.psub "sub_1" "active") = true /\
  fault Sample.E0
    (status_site (customer_subscription_updated (Sample.psub "sub_1" "active")))
  = false /\
  fst (deliver
         [(Sample.E1,
           Some (customer_subscription_deleted (Sample.psub "sub_1" "canceled")));
          (Sample.E0,
           Some (customer_subscription_updated (Sample.psub "sub_1" "active")))]
         Sample.two_rows)
  = fst (POST Sample.E0
           (Some (customer_subscription_updated (Sample.psub "sub_1" "active")))
           Sample.two_rows).
Proof.
  split; [reflexivity |]. split; [reflexivity |].
  apply (last_status_event_wins Sample.E1 Sample.E0 _ _
           (Sample.psub "sub_1" "canceled") (Sample.psub "sub_1" "active"));
    [right; reflexivity | left; left; reflexivity | reflexivity | reflexivity
    | reflexivity].
Defined.

(** ** More on identity resolution *)

(** X8: a well-shaped [client_reference_id] that does not name exactly
    one stored user (or whose check fails) is not trusted: the session's
    email decides.  Without an email the event is rejected with "User ID
    not valid and no email to retry"; with an email that finds nobody,
    with "User ID not valid"; otherwise the user the email finds is the
    one used. *)
Theorem stale_reference_falls_back_to_email E session ref w :
  client_reference_id session = Some ref ->
  uuid_regex_match ref = true ->
  fault E L187_select_user_by_id = true \/ user_count ref w <> 1%nat ->
  (truthy (session_email session) = false ->
   resolveUserId E session w
   = (w, Val (inl (json_status
                     (ErrorBody "User ID not valid and no email to retry")
                     400)))) /\
  (truthy (session_email session) = true ->
   findUserIdByEmail E (as_string (session_email session)) w = (w, Val None) ->
   resolveUserId E session w
   = (w, Val (inl (json_status (ErrorBody "User ID not valid") 400)))) /\
  (forall uid,
     truthy (session_email session) = true ->
     findUserIdByEmail E (as_string (session_email session)) w
     = (w, Val (Some uid)) ->
     uid <> "" ->
     resolveUserId E session w = (w, Val (inr uid))).
Proof.
  intros Href Hshape Hstale.
  assert (forall k : option User -> M (Response + string),
            bind (users_select_single E L187_select_user_by_id
                    (fun u => String.eqb (u_id u) ref))
                 (fun r => k (data r)) w
            = k None w) as Hsel.
  { intros k. unfold bind, users_select_single, gets.
    destruct Hstale as [-> | Hne]; [reflexivity |].
    destruct (fault E L187_select_user_by_id); [reflexivity |].
    unfold user_count in Hne.
    destruct (List.filter _ (users w)) as [| u [| u' us]];
      try reflexivity.
    exfalso. apply Hne. reflexivity. }
  assert (resolveUserId E session w =
          (if truthy (session_email session) then
             let* foundUserId :=
               findUserIdByEmail E (as_string (session_email session)) in
             if truthy foundUserId then ret (inr (as_string foundUserId))
             else ret (inl (json_status (ErrorBody "User ID not valid") 400))
           else
             ret (inl (json_status
                         (ErrorBody "User ID not valid and no email to retry")
                         400))) w) as Heq.
  { unfold resolveUserId. rewrite reference_or_empty, Href. cbn [as_string].
    rewrite (uuid_not_empty _ Hshape), Hshape. cbn [negb orb].
    unfold bind at 1. unfold ret at 1. unfold try_catch.
    rewrite (Hsel (fun d =>
               match d with
               | Some _ => ret (inr ref)
               | None => _
               end)).
    destruct (truthy (session_email session)).
    - unfold bind. rewrite findUserIdByEmail_eval.
      destruct (truthy _); reflexivity.
    - reflexivity. }
  rewrite Heq. split; [| split].
  - intros ->. reflexivity.
  - intros -> Hfind. unfold bind. rewrite Hfind. reflexivity.
  - intros uid -> Hfind Hne. unfold bind. rewrite Hfind.
    cbn [truthy as_string]. rewrite (eqb_empty_false _ Hne). reflexivity.
Qed.

Lemma stale_reference_falls_back_to_email_witness :
  client_reference_id (Further.checkout_with Further.U2 "abc@x.io")
  = Some Further.U2 /\
  uuid_regex_match Further.U2 = true /\
  user_count Further.U2 (fresh [Sample.alice] []) <> 1%nat /\
  resolveUserId Sample.E0 (Further.checkout_with Further.U2 "abc@x.io")
    (fresh [Sample.alice] [])
  = (fresh [Sample.alice] [], Val (inr Sample.U1)).
Proof.
  assert (user_count Further.U2 (fresh [Sample.alice] []) <> 1%nat) as Hne
    by (vm_compute; discriminate).
  split; [reflexivity |]. split; [reflexivity |]. split; [exact Hne |].
  apply (stale_reference_falls_back_to_email Sample.E0
           (Further.checkout_with Further.U2 "abc@x.io") Further.U2
           (fresh [Sample.alice] []) eq_refl eq_refl (or_intror Hne));
    [reflexivity | reflexivity | discriminate].
Defined.

Lemma names_user_same_reference a b uid w :
  same_but_email a b -> names_user a uid w -> names_user b uid w.
Proof. intros (Href & _ & _) (H1 & H2 & H3). repeat split; congruence. Qed.

(** X9: the reference wins over the email.  When the session's
    [client_reference_id] is a well-shaped identifier of exactly one user
    and its check succeeds, the email fields play no part: two such
    sessions that differ only in them get the same answer and leave the
    same world. *)
Theorem reference_wins_over_email E a b uid w :
  same_but_email a b ->
  names_user a uid w ->
  fault E L187_select_user_by_id = false ->
  POST E (Some (checkout_session_completed a)) w
  = POST E (Some (checkout_session_completed b)) w.
Proof.
  intros Hsame Hname Hok.
  pose proof (names_user_same_reference a b uid w Hsame Hname) as Hname'.
  pose proof (resolveUserId_by_reference E a uid w Hname Hok) as Ha.
  pose proof (resolveUserId_by_reference E b uid w Hname' Hok) as Hb.
  destruct Hsame as (_ & Hc & Hs).
  unfold POST, dispatch, handleCheckoutSessionCompleted.
  rewrite <- Hc, <- Hs.
  destruct (truthy (subscription a)); [| reflexivity].
  destruct (truthy (customer a)); [| reflexivity].
  cbn [negb]. unfold bind. rewrite Ha, Hb.
  rewrite !reconcileCheckout_eval, <- Hc, <- Hs. reflexivity.
Qed.

Lemma reference_wins_over_email_witness :
  same_but_email (Sample.checkout "sub_1")
    (Further.checkout_with Sample.U1 "bob@x.io") /\
  names_user (Sample.checkout "sub_1") Sample.U1
    (fresh [Sample.alice; Further.bob] []) /\
  POST Sample.E0 (Some (checkout_session_completed (Sample.checkout "sub_1")))
    (fresh [Sample.alice; Further.bob] [])
  = POST Sample.E0
      (Some (checkout_session_completed
               (Further.checkout_with Sample.U1 "bob@x.io")))
      (fresh [Sample.alice; Further.bob] []).
Proof.
  assert (same_but_email (Sample.checkout "sub_1")
            (Further.checkout_with Sample.U1 "bob@x.io")) as Hsame
    by (repeat split).
  assert (names_user (Sample.checkout "sub_1") Sample.U1
            (fresh [Sample.alice; Further.bob] [])) as Hname
    by (repeat split).
  split; [exact Hsame |]. split; [exact Hname |].
  apply (reference_wins_over_email Sample.E0 _ _ Sample.U1 _ Hsame Hname).
  reflexivity.
Defined.

(** X10: in a process started with empty maps, after any deliveries, a
    subscription-created event writes no row, asks for no cancellation
    and is acknowledged; all it does is store the subscription's customer
    under the subscription identifier in [pendingSubscriptions]. *)
Theorem subscription_created_only_stashes rs us rows E sub :
  POST E (Some (customer_subscription_created sub))
    (fst (deliver rs (fresh us rows)))
  = (with_pendingSubscriptions
       (<[sub_id sub := stash sub]>
          (pendingSubscriptions (fst (deliver rs (fresh us rows)))))
       (fst (deliver rs (fresh us rows))),
     acknowledged).
Proof.
  apply handleSubscriptionCreated_stashes.
  apply (deliver_no_new_association rs (fresh us rows)).
  apply lookup_empty.
Qed.

(** ** The identifier format *)

Lemma take_hex_spec n : forall l r,
  take_hex n l = Some r <->
  exists g, l = g ++ r /\ length g = n /\ all_hex g.
Proof.
  unfold all_hex. induction n as [| n IH]; intros l r; simpl.
  - split.
    + intros [= ->]. exists []. auto.
    + intros (g & -> & Hlen & _). destruct g; [reflexivity | discriminate].
  - destruct l as [| c l].
    + split; [discriminate |].
      intros (g & Heq & Hlen & _). destruct g; discriminate.
    + destruct (is_hex c) eqn:Hc.
      * rewrite IH. split.
        -- intros (g & -> & Hlen & Hhex). exists (c :: g). simpl.
           rewrite Hc, Hhex, Hlen. auto.
        -- intros (g & Heq & Hlen & Hhex).
           destruct g as [| c' g]; [discriminate |].
           simpl in *. injection Heq as <- ->. injection Hlen as Hlen.
           apply andb_true_iff in Hhex as [_ Hhex]. exists g. auto.
      * split; [discriminate |].
        intros (g & Heq & Hlen & Hhex).
        destruct g as [| c' g]; [discriminate |].
        simpl in *. injection Heq as <- ->.
        rewrite Hc in Hhex. discriminate.
Qed.

Lemma take_dash_spec l r : take_dash l = Some r <-> l = "-"%char :: r.
Proof.
  unfold take_dash. destruct l as [| c l]; [split; discriminate |].
  destruct (Ascii.eqb_spec c "-") as [-> | Hne]; split.
  - intros [= ->]. reflexivity.
  - intros [= ->]. reflexivity.
  - discriminate.
  - intros [= -> ->]. contradiction.
Qed.

Lemma then_hex_spec n o r :
  then_hex n o = Some r <->
  exists l, o = Some l /\ exists g, l = g ++ r /\ length g = n /\ all_hex g.
Proof.
  destruct o as [l |]; simpl.
  - rewrite take_hex_spec. split.
    + intros H. exists l. auto.
    + intros (l' & [= <-] & H). exact H.
  - split; [discriminate | intros (l & H & _); discriminate].
Qed.

Lemma then_dash_spec o r :
  then_dash o = Some r <-> o = Some ("-"%char :: r).
Proof.
  destruct o as [l |]; simpl.
  - rewrite take_dash_spec. split; [intros -> | intros [= ->]]; reflexivity.
  - split; discriminate.
Qed.

(** X11: the test of line 155 accepts exactly the strings made of five
    runs of 8, 4, 4, 4 and 12 hexadecimal digits, upper or lower case,
    joined by single dashes; nothing may come before or after. *)
Theorem uuid_regex_match_iff s : uuid_regex_match s = true <-> uuid_shaped s.
Proof.
  unfold uuid_regex_match, uuid_shaped.
  set (l := list_ascii_of_string s).
  split.
  - destruct (then_hex 12 _) as [[| c r] |] eqn:H5; try discriminate.
    intros _.
    apply then_hex_spec in H5 as (l5 & H5 & g5 & -> & Hl5 & Hh5).
    apply then_dash_spec in H5.
    apply then_hex_spec in H5 as (l4 & H4 & g4 & -> & Hl4 & Hh4).
    apply then_dash_spec in H4.
    apply then_hex_spec in H4 as (l3 & H3 & g3 & -> & Hl3 & Hh3).
    apply then_dash_spec in H3.
    apply then_hex_spec in H3 as (l2 & H2 & g2 & -> & Hl2 & Hh2).
    apply then_dash_spec in H2.
    apply take_hex_spec in H2 as (g1 & H1 & Hl1 & Hh1).
    exists g1, g2, g3, g4, g5. rewrite app_nil_r in H1.
    split; [exact H1 | auto 10].
  - intros (g1 & g2 & g3 & g4 & g5 & Heq & (L1 & L2 & L3 & L4 & L5)
            & H1 & H2 & H3 & H4 & H5).
    assert (then_hex 12
              (then_dash (then_hex 4 (then_dash (then_hex 4 (then_dash
                 (then_hex 4 (then_dash (take_hex 8 l)))))))) = Some [])
      as ->; [| reflexivity].
    apply then_hex_spec. eexists. split.
    2:{ exists g5. rewrite app_nil_r. split; [reflexivity | auto]. }
    apply then_dash_spec. apply then_hex_spec. eexists. split.
    2:{ exists g4. split; [reflexivity | auto]. }
    apply then_dash_spec. apply then_hex_spec. eexists. split.
    2:{ exists g3. split; [reflexivity | auto]. }
    apply then_dash_spec. apply then_hex_spec. eexists. split.
    2:{ exists g2. split; [reflexivity | auto]. }
    apply then_dash_spec. apply take_hex_spec.
    exists g1. split; [exact Heq | auto].
Qed.

(** ** The email lookup *)

Lemma like_ci_self p :
  forallb (fun c => negb (Ascii.eqb c "\")) p = true -> like_ci p p = true.
Proof.
  induction p as [| c p IH]; [reflexivity |].
  simpl. intros H. apply andb_true_iff in H as [Hc Hp].
  apply negb_true_iff in Hc. specialize (IH Hp).
  destruct (Ascii.eqb c "%" || Ascii.eqb c "*").
  - destruct p as [| x q]; rewrite IH; [reflexivity | apply orb_true_r].
  - destruct (Ascii.eqb c "_"); [exact IH |].
    rewrite Hc. unfold eqb_ci. rewrite Ascii.eqb_refl. exact IH.
Qed.

(** X12: an email without a backslash, read as a pattern, matches
    itself, whatever other pattern characters it holds; so a user stored
    under exactly the session's email is always among the rows the lookup
    selects. *)
Theorem email_matches_itself email :
  no_backslash email -> ilike email email = true.
Proof. intros H. unfold ilike. apply like_ci_self. exact H. Qed.

Lemma email_matches_itself_witness :
  no_backslash "first_last%x@x.io" /\
  ilike "first_last%x@x.io" "first_last%x@x.io" = true.
Proof.
  assert (no_backslash "first_last%x@x.io") as H by reflexivity.
  split; [exact H | apply (email_matches_itself _ H)].
Defined.

(** X13: for an email that holds none of the characters [%], [*], [_]
    and backslash, [findUserIdByEmail] is the exact lookup without regard
    to case: it answers the identifier of the one user whose email equals
    it, and nothing when no user or more than one has that email, or when
    the store fails. *)
Theorem findUserIdByEmail_exact_without_wildcards E email w :
  no_wildcard email ->
  findUserIdByEmail E email w =
  (w, Val (if fault E L54_select_user_by_email then None
           else match List.filter (fun u => eq_ci (u_email u) email) (users w)
                with
                | [u] => Some (u_id u)
                | _ => None
                end)).
Proof.
  intros H. rewrite findUserIdByEmail_eval.
  rewrite (List.filter_ext (fun u => ilike (u_email u) email)
             (fun u => eq_ci (u_email u) email)); [reflexivity |].
  intros u. apply ilike_exact. exact H.
Qed.

Lemma findUserIdByEmail_exact_without_wildcards_witness :
  no_wildcard "ABC@x.io" /\
  findUserIdByEmail Sample.E0 "ABC@x.io"
    (fresh [Sample.alice; Further.bob] [])
  = (fresh [Sample.alice; Further.bob] [], Val (Some Sample.U1)).
Proof.
  assert (no_wildcard "ABC@x.io") as H by reflexivity.
  split; [exact H |].
  rewrite (findUserIdByEmail_exact_without_wildcards Sample.E0 _
             (fresh [Sample.alice; Further.bob] []) H).
  reflexivity.
Defined.

(** ** The migration's functions and the handler's lookups *)

Lemma star_to_percent_other c : c <> "*"%char -> star_to_percent c = c.
Proof.
  intros H. unfold star_to_percent.
  destruct (Ascii.eqb_spec c "*"); [contradiction | reflexivity].
Qed.

Lemma like_ci_as_pg_len n : forall p, (length p < n)%nat -> forall t,
  like_ci p t = pg_like_ci (List.map star_to_percent p) t.
Proof.
  induction n as [| n IH]; intros p Hlen; [lia |].
  destruct p as [| c p]; [reflexivity |].
  cbn [length] in Hlen.
  assert (forall t, like_ci p t = pg_like_ci (List.map star_to_percent p) t)
    as IHp by (apply IH; lia).
  cbn [List.map like_ci pg_like_ci].
  destruct (Ascii.eqb_spec c "*") as [-> | Hstar].
  - change (star_to_percent "*") with "%"%char.
    cbn [Ascii.eqb Bool.eqb andb orb].
    induction t as [| x t IHt]; rewrite IHp; [reflexivity |].
    rewrite IHt. reflexivity.
  - rewrite (star_to_percent_other c Hstar), orb_false_r.
    destruct (Ascii.eqb c "%").
    { induction t as [| x t IHt]; rewrite IHp; [reflexivity |].
      rewrite IHt. reflexivity. }
    destruct (Ascii.eqb c "_").
    { intros [| x t]; [reflexivity | apply IHp]. }
    destruct (Ascii.eqb c "\").
    + destruct p as [| d p]; [reflexivity |].
      cbn [List.map]. intros [| x t]; [reflexivity |].
      cbn [length] in Hlen. rewrite (IH p); [reflexivity | lia].
    + intros [| x t]; [reflexivity |]. rewrite IHp. reflexivity.
Qed.

(** What the handler's [.ilike] matches is what the database's [ILIKE]
    matches on the pattern with every [*] written [%]. *)
Lemma like_ci_as_pg p t :
  like_ci p t = pg_like_ci (List.map star_to_percent p) t.
Proof. apply (like_ci_as_pg_len (S (length p))). lia. Qed.

Lemma map_star_to_percent_id p :
  forallb (fun c => negb (Ascii.eqb c "*")) p = true ->
  List.map star_to_percent p = p.
Proof.
  induction p as [| c p IH]; [reflexivity |]. simpl.
  intros H. apply andb_true_iff in H as [Hc Hp].
  rewrite (IH Hp). unfold star_to_percent.
  destruct (Ascii.eqb c "*"); [discriminate | reflexivity].
Qed.

Lemma ilike_without_star text pattern :
  no_star pattern -> ilike text pattern = pg_ilike text pattern.
Proof.
  intros H. unfold ilike, pg_ilike.
  rewrite like_ci_as_pg, (map_star_to_percent_id _ H). reflexivity.
Qed.

(** With a [*] the two differ: the handler's lookup reads it as a
    wildcard, the migration's function as the character itself. *)
Example find_user_by_email_reads_star_literally :
  findUserIdByEmail Sample.E0 "a*c@x.io" (fresh [Sample.alice] [])
  = (fresh [Sample.alice] [], Val (Some Sample.U1)) /\
  find_user_by_email [Sample.alice] "a*c@x.io" = None /\
  find_user_by_email [Sample.alice] "a%c@x.io" = Some Sample.U1.
Proof. repeat split; reflexivity. Qed.

(** X14: for an email without the character [*], whenever the handler's
    [findUserIdByEmail] finds a user, the migration's [find_user_by_email]
    finds the same one; and when [find_user_by_email] finds nobody,
    neither does the handler.  (The migration's function also answers
    when several users match, where the handler's lookup gives up.  With a
    [*] in the email the two read different patterns: PostgREST turns the
    [*] of [.ilike] into [%], the SQL function matches it literally.) *)
Theorem find_user_by_email_agrees E email w :
  no_star email ->
  (forall id,
     findUserIdByEmail E email w = (w, Val (Some id)) ->
     find_user_by_email (users w) email = Some id) /\
  (find_user_by_email (users w) email = None ->
   findUserIdByEmail E email w = (w, Val None)).
Proof.
  intros Hstar.
  rewrite findUserIdByEmail_eval. unfold find_user_by_email.
  rewrite (List.filter_ext (fun u => pg_ilike (u_email u) email)
             (fun u => ilike (u_email u) email)
             (fun u => eq_sym (ilike_without_star (u_email u) email Hstar))).
  destruct (fault E L54_select_user_by_email);
    destruct (List.filter _ (users w)) as [| u [| u' us]];
    split; try discriminate; try reflexivity; intros id H; inversion H;
    reflexivity.
Qed.

Lemma existsb_filter_length {A} (p : A -> bool) (l : list A) :
  existsb p l = negb (Nat.eqb (length (List.filter p l)) 0).
Proof.
  induction l as [| a l IH]; [reflexivity |].
  simpl. destruct (p a); [reflexivity | exact IH].
Qed.

(** X15: [createSubscription] writes only for users the migration's
    [check_user_exists] accepts: whenever it returns, the user identifier
    it was given exists in the users table. *)
Theorem createSubscription_only_for_existing_users E sid uid cid w w' r :
  createSubscription E sid uid cid w = (w', Val r) ->
  check_user_exists (users w) uid = true.
Proof.
  rewrite createSubscription_eval. unfold check_user_exists.
  rewrite existsb_filter_length.
  destruct (String.eqb sid "" || String.eqb uid "" || String.eqb cid "");
    [discriminate |].
  destruct (fault E L383_select_user_by_id); [discriminate |].
  destruct (List.filter _ (users w)) as [| u [| u' us]];
    [discriminate | reflexivity | discriminate].
Qed.

Lemma createSubscription_only_for_existing_users_witness :
  createSubscription Sample.E0 "sub_1" Sample.U1 "cus_1" Sample.two_rows
  = (with_subscriptions
       (update_rows
          (refresh_fields Sample.E0 (Sample.psub "sub_1" "active")) "sub_1"
          (subscriptions Sample.two_rows))
       Sample.two_rows,
     Val (Some (Sample.row "sub_1" "incomplete"))) /\
  check_user_exists (users Sample.two_rows) Sample.U1 = true.
Proof.
  assert (createSubscription Sample.E0 "sub_1" Sample.U1 "cus_1"
            Sample.two_rows
          = (with_subscriptions
               (update_rows
                  (refresh_fields Sample.E0 (Sample.psub "sub_1" "active"))
                  "sub_1" (subscriptions Sample.two_rows))
               Sample.two_rows,
             Val (Some (Sample.row "sub_1" "incomplete")))) as H
    by reflexivity.
  split; [exact H |].
  apply (createSubscription_only_for_existing_users _ _ _ _ _ _ _ H).
Defined.

(** ** After a deletion *)

Lemma filter_existing_after_delete E sub c rows :
  is_active_or_trialing (sub_status sub) = false ->
  (forall r, In r rows -> existing_filter c r = true ->
             stripe_subscription_id r = sub_id sub) ->
  List.filter (existing_filter c)
    (update_rows (deleted_fields E sub) (sub_id sub) rows) = [].
Proof.
  intros Hst. unfold update_rows.
  induction rows as [| r rows IH]; intros Hall; [reflexivity |].
  simpl.
  destruct (String.eqb_spec (stripe_subscription_id r) (sub_id sub))
    as [Heq | Hne].
  - unfold existing_filter at 1. cbn [status deleted_fields].
    rewrite Hst, andb_false_r. apply IH.
    intros r' Hin. apply Hall. right. exact Hin.
  - destruct (existing_filter c r) eqn:Hf.
    + exfalso. apply Hne. apply Hall; [left; reflexivity | exact Hf].
    + apply IH. intros r' Hin. apply Hall. right. exact Hin.
Qed.

(** X16: a deleted subscription stops blocking its customer.  When every
    active or trialing row of a customer belongs to one subscription, and
    a subscription-deleted event for it arrives with a status that is
    neither active nor trialing and is accepted by the store, the duplicate
    check of that customer answers [false] from then on. *)
Theorem deleted_subscription_stops_blocking E E' sub c w :
  fault E L324_update = false ->
  is_active_or_trialing (sub_status sub) = false ->
  (forall r, In r (subscriptions w) -> existing_filter c r = true ->
             stripe_subscription_id r = sub_id sub) ->
  checkExistingSubscription E' c
    (fst (POST E (Some (customer_subscription_deleted sub)) w))
  = (fst (POST E (Some (customer_subscription_deleted sub)) w), Val false).
Proof.
  intros Hok Hst Hall.
  rewrite checkExistingSubscription_eval. unfold existing_count.
  unfold POST, dispatch. rewrite handleSubscriptionDeleted_eval, Hok.
  cbn [fst subscriptions with_subscriptions].
  rewrite (filter_existing_after_delete E sub c _ Hst Hall).
  rewrite andb_false_r. reflexivity.
Qed.

Lemma deleted_subscription_stops_blocking_witness :
  fault Sample.E1 L324_update = false /\
  is_active_or_trialing (sub_status (Sample.psub "sub_2" "canceled")) = false /\
  checkExistingSubscription Sample.E0 "cus_1"
    (fst (POST Sample.E1
            (Some (customer_subscription_deleted
                     (Sample.psub "sub_2" "canceled")))
            Sample.two_rows))
  = (fst (POST Sample.E1
            (Some (customer_subscription_deleted
                     (Sample.psub "sub_2" "canceled")))
            Sample.two_rows),
     Val false).
Proof.
  split; [reflexivity |]. split; [reflexivity |].
  apply (deleted_subscription_stops_blocking Sample.E1 Sample.E0
           (Sample.psub "sub_2" "canceled") "cus_1" Sample.two_rows);
    [reflexivity | reflexivity |].
  intros r [<- | [<- | []]] H; [discriminate H | reflexivity].
Defined.

Lemma find_user_by_email_agrees_witness :
  no_star "a_c@x.io" /\
  findUserIdByEmail Sample.E0 "a_c@x.io" (fresh [Sample.alice; Further.bob] [])
  = (fresh [Sample.alice; Further.bob] [], Val (Some Sample.U1)) /\
  find_user_by_email (users (fresh [Sample.alice; Further.bob] [])) "a_c@x.io"
  = Some Sample.U1.
Proof.
  assert (no_star "a_c@x.io") as Hstar by reflexivity.
  assert (findUserIdByEmail Sample.E0 "a_c@x.io"
            (fresh [Sample.alice; Further.bob] [])
          = (fresh [Sample.alice; Further.bob] [], Val (Some Sample.U1)))
    as H by reflexivity.
  split; [exact Hstar |]. split; [exact H |].
  apply (find_user_by_email_agrees Sample.E0 "a_c@x.io"
           (fresh [Sample.alice; Further.bob] []) Hstar).
  exact H.
Defined.

(** ** The stash is never read *)

Lemma blind_subscriptions_select E s f :
  blind (subscriptions_select_single E s f).
Proof. apply blind_gets. reflexivity. Qed.

Lemma blind_update E s f id : blind (subscriptions_update E s f id).
Proof.
  intros p w. unfold subscriptions_update. destruct (fault E s); reflexivity.
Qed.

Lemma blind_insert E s row : blind (subscriptions_insert E s row).
Proof.
  intros p w. unfold subscriptions_insert. destruct (fault E s); reflexivity.
Qed.

Lemma blind_retrieve E s id : blind (stripe_subscriptions_retrieve E s id).
Proof.
  unfold stripe_subscriptions_retrieve.
  apply blind_if; [apply blind_throw |].
  destruct (provider_find E id); [apply blind_ret | apply blind_throw].
Qed.

Lemma blind_cancel E s id : blind (stripe_subscriptions_cancel E s id).
Proof.
  unfold stripe_subscriptions_cancel.
  apply blind_bind; [intros p w; reflexivity |].
  intros _. apply blind_if; [apply blind_throw |].
  destruct (provider_find E id); [apply blind_ret | apply blind_throw].
Qed.

Lemma blind_checkExistingSubscription E c :
  blind (checkExistingSubscription E c).
Proof.
  unfold checkExistingSubscription.
  apply blind_bind; [apply blind_subscriptions_select |].
  intros; apply blind_ret.
Qed.

Lemma blind_toISOString ms : blind (toISOString ms).
Proof.
  unfold toISOString. apply blind_if; [apply blind_ret | apply blind_throw].
Qed.

Lemma blind_createSubscription E sid uid cid :
  blind (createSubscription E sid uid cid).
Proof.
  unfold createSubscription.
  apply blind_try_catch; [| intros; apply blind_throw].
  apply blind_if; [apply blind_throw |].
  apply blind_bind; [apply blind_users_select |].
  intros u. destruct (error u), (data u); try apply blind_throw.
  apply blind_bind; [apply blind_retrieve |]. intros s.
  apply blind_bind; [apply blind_subscriptions_select |]. intros ex.
  destruct (error ex) as [[|] |]; try apply blind_throw;
    (destruct (data ex);
     [ apply blind_bind; [apply blind_toISOString |]; intros periodEnd;
       apply blind_bind; [apply blind_update |];
       intros [e |]; [apply blind_throw | apply blind_ret]
     | apply blind_bind; [apply blind_toISOString |]; intros periodEnd;
       apply blind_bind; [apply blind_insert |];
       intros [e |]; [apply blind_throw |];
       apply blind_bind; [apply blind_subscriptions_select |];
       intros; apply blind_ret ]).
Qed.

Lemma blind_reconcileCheckout E session uid :
  blind (reconcileCheckout E session uid).
Proof.
  unfold reconcileCheckout.
  apply blind_try_catch; [| intros; apply blind_ret].
  apply blind_bind; [apply blind_checkExistingSubscription |].
  intros b. apply blind_if.
  - apply blind_bind; [| intros; apply blind_ret].
    apply blind_if; [apply blind_cancel | apply blind_ret].
  - apply blind_bind; [| intros; apply blind_ret].
    apply blind_try_catch.
    + apply blind_bind; [apply blind_createSubscription |].
      intros; apply blind_ret.
    + intros e. apply blind_bind; [| intros; apply blind_throw].
      apply blind_try_catch; [| intros; apply blind_ret].
      apply blind_bind; [apply blind_retrieve | intros; apply blind_ret].
Qed.

Lemma same_outside_pending_with a b :
  same_outside_pending a b ->
  a = with_pendingSubscriptions (pendingSubscriptions a) b.
Proof.
  destruct a, b. unfold same_outside_pending. simpl.
  intros (-> & -> & -> & ->). reflexivity.
Qed.

Lemma same_outside_pending_of p w :
  same_outside_pending (with_pendingSubscriptions p w) w.
Proof. repeat split. Qed.

Lemma blind_dispatch E event :
  (forall sub, event <> customer_subscription_created sub) ->
  blind (dispatch E event).
Proof.
  intros Hne.
  destruct event as [session | sub | sub | sub | sub | sub | sub | ty]; simpl.
  - unfold handleCheckoutSessionCompleted.
    apply blind_if; [apply blind_ret |].
    apply blind_if; [apply blind_ret |].
    apply blind_bind; [apply blind_resolveUserId |].
    intros [r | uid]; [apply blind_ret | apply blind_reconcileCheckout].
  - exfalso. exact (Hne sub eq_refl).
  - apply blind_bind; [apply blind_toISOString | intros periodEnd].
    apply blind_bind; [apply blind_update | intros; apply blind_ret].
  - apply blind_bind; [apply blind_toISOString | intros periodEnd].
    apply blind_bind; [apply blind_update | intros; apply blind_ret].
  - apply blind_bind; [apply blind_toISOString | intros periodEnd].
    apply blind_bind; [apply blind_update | intros; apply blind_ret].
  - apply blind_bind; [apply blind_toISOString | intros periodEnd].
    apply blind_bind; [apply blind_update | intros; apply blind_ret].
  - apply blind_bind; [apply blind_update | intros; apply blind_ret].
  - apply blind_ret.
Qed.

Lemma POST_same_outside_pending E request a b :
  same_outside_pending a b ->
  snd (POST E request a) = snd (POST E request b) /\
  same_outside_pending (fst (POST E request a)) (fst (POST E request b)).
Proof.
  intros Hab. pose proof Hab as Hab'.
  apply same_outside_pending_with in Hab. rewrite Hab.
  set (p := pendingSubscriptions a). clearbody p. clear Hab Hab' a.
  destruct request as [event |];
    [| split; [reflexivity | apply same_outside_pending_of]].
  destruct event as [session | sub | sub | sub | sub | sub | sub | ty];
    try (unfold POST;
         match goal with
         | |- context [dispatch E ?ev (with_pendingSubscriptions p b)] =>
             assert (forall s, ev <> customer_subscription_created s) as Hne
               by (intros; discriminate);
             rewrite (blind_dispatch E ev Hne p b);
             destruct (dispatch E ev b) as [w' [[r |] | e]]; simpl;
             (split; [reflexivity | apply same_outside_pending_of])
         end).
  unfold POST, dispatch, handleSubscriptionCreated, bind, gets.
  cbn [checkoutSessionMap with_pendingSubscriptions].
  destruct (checkoutSessionMap b !! sub_id sub) as [sd |].
  - rewrite (blind_createSubscription E (sub_id sub) (userId sd)
               (customerId sd) p b).
    destruct (createSubscription E _ _ _ b) as [w' [r | e]]; simpl;
      (split; [reflexivity | repeat split]).
  - simpl. split; [reflexivity | repeat split].
Qed.

(** X17: [pendingSubscriptions] is written but never read.  Two
    processes that differ only in what that map holds give the same
    answers to the same deliveries and end with the same tables, the same
    [checkoutSessionMap] and the same cancellation requests. *)
Theorem stash_is_never_read rs : forall a b,
  same_outside_pending a b ->
  snd (deliver rs a) = snd (deliver rs b) /\
  same_outside_pending (fst (deliver rs a)) (fst (deliver rs b)).
Proof.
  induction rs as [| [E request] rest IH]; intros a b Hab; simpl;
    [split; [reflexivity | exact Hab] |].
  destruct (POST_same_outside_pending E request a b Hab) as [Hr Hw].
  destruct (POST E request a) as [a1 ra], (POST E request b) as [b1 rb].
  simpl in Hr, Hw. subst rb.
  destruct (IH a1 b1 Hw) as [Hl Hw'].
  destruct (deliver rest a1) as [a2 la], (deliver rest b1) as [b2 lb].
  simpl in *. subst lb. split; [reflexivity | exact Hw'].
Qed.

Lemma stash_is_never_read_witness :
  same_outside_pending
    (with_pendingSubscriptions
       {[ "sub_1" := stash (Sample.psub "sub_1" "active") ]}
       (fresh [Sample.alice] []))
    (fresh [Sample.alice] []) /\
  snd (deliver
         [(Sample.E0,
           Some (checkout_session_completed (Sample.checkout "sub_1")))]
         (with_pendingSubscriptions
            {[ "sub_1" := stash (Sample.psub "sub_1" "active") ]}
            (fresh [Sample.alice] [])))
  = snd (deliver
           [(Sample.E0,
             Some (checkout_session_completed (Sample.checkout "sub_1")))]
           (fresh [Sample.alice] [])).
Proof.
  assert (same_outside_pending
            (with_pendingSubscriptions
               {[ "sub_1" := stash (Sample.psub "sub_1" "active") ]}
               (fresh [Sample.alice] []))
            (fresh [Sample.alice] [])) as H by (repeat split).
  split; [exact H |].
  apply (stash_is_never_read _ _ _ H).
Defined.

(** ** When the upsert returns *)

(** X18: [createSubscription] returns, instead of throwing, exactly when
    its three arguments are non-empty, the read of the user at line 383
    answers with a row, the provider knows the subscription and answers,
    the provider's period end is a time [Date] can hold, the read of the
    stored row succeeds, and the one write it then makes succeeds: the
    update when exactly one row has the subscription identifier, the
    insert otherwise.  A failing read-back after the insert (line 452)
    does not make it throw. *)
Theorem createSubscription_returns_iff E sid uid cid w :
  (exists w' r, createSubscription E sid uid cid w = (w', Val r)) <->
  sid <> "" /\ uid <> "" /\ cid <> "" /\
  (exists u,
     users_select_single E L383_select_user_by_id
       (fun u => String.eqb (u_id u) uid) w
     = (w, Val {| data := Some u; error := None |})) /\
  fault E L394_stripe_retrieve = false /\
  (exists s,
     provider_find E sid = Some s /\
     date_in_range (sub_current_period_end s * 1000) = true) /\
  fault E L397_select_subscription = false /\
  (if Nat.eqb (length (rows_of sid w)) 1
   then fault E L410_update = false
   else fault E L442_insert = false).
Proof.
  rewrite createSubscription_eval. unfold users_select_single, gets.
  destruct (String.eqb_spec sid "") as [Hs | Hs].
  { simpl. split; [intros (w' & r & H); discriminate | tauto]. }
  destruct (String.eqb_spec uid "") as [Hu | Hu].
  { simpl. split; [intros (w' & r & H); discriminate | tauto]. }
  destruct (String.eqb_spec cid "") as [Hc | Hc].
  { simpl. split; [intros (w' & r & H); discriminate | tauto]. }
  cbn [orb].
  destruct (fault E L383_select_user_by_id).
  { split; [intros (w' & r & H); discriminate | intros H; exfalso].
    destruct H as (_ & _ & _ & (u & H) & _). discriminate. }
  destruct (List.filter _ (users w)) as [| u [| u' us]];
    cbn [data single length];
    try (split; [intros (w' & r & H); discriminate | intros H; exfalso;
         destruct H as (_ & _ & _ & (u0 & H) & _); discriminate]).
  destruct (fault E L394_stripe_retrieve).
  { split; [intros (w' & r & H); discriminate | intros H; exfalso].
    destruct H as (_ & _ & _ & _ & H & _). discriminate. }
  destruct (provider_find E sid) as [s |].
  2:{ split; [intros (w' & r & H); discriminate | intros H; exfalso].
      destruct H as (_ & _ & _ & _ & _ & (x & H & _) & _). discriminate. }
  destruct (fault E L397_select_subscription).
  { split; [intros (w' & r & H); discriminate | intros H; exfalso].
    destruct H as (_ & _ & _ & _ & _ & _ & H & _). discriminate. }
  destruct (date_in_range (sub_current_period_end s * 1000)) eqn:Hrange;
    cbn [negb].
  2:{ split; [intros (w' & r & H); discriminate | intros H; exfalso].
      destruct H as (_ & _ & _ & _ & _ & (x & [= <-] & H) & _).
      rewrite Hrange in H. discriminate. }
  destruct (rows_of sid w) as [| r0 [| r1 rs]]; cbn [data single length Nat.eqb].
  - destruct (fault E L442_insert).
    + split; [intros (w' & r & H); discriminate | intros H; exfalso].
      destruct H as (_ & _ & _ & _ & _ & _ & _ & H). discriminate.
    + split; [intros _ | intros _; eauto].
      repeat split; try assumption; eauto.
  - destruct (fault E L410_update).
    + split; [intros (w' & r & H); discriminate | intros H; exfalso].
      destruct H as (_ & _ & _ & _ & _ & _ & _ & H). discriminate.
    + split; [intros _ | intros _; eauto].
      repeat split; try assumption; eauto.
  - destruct (fault E L442_insert).
    + split; [intros (w' & r & H); discriminate | intros H; exfalso].
      destruct H as (_ & _ & _ & _ & _ & _ & _ & H). discriminate.
    + split; [intros _ | intros _; eauto].
      repeat split; try assumption; eauto.
Qed.

(** ** A request touches one subscription *)

Lemma touches_only_same id rows : touches_only id rows rows.
Proof.
  exists rows, []. rewrite app_nil_r. split; [reflexivity |].
  split; [| constructor].
  induction rows; constructor; auto.
Qed.

Lemma touches_only_update f id rows :
  touches_only id rows (update_rows f id rows).
Proof.
  exists (update_rows f id rows), []. rewrite app_nil_r.
  split; [reflexivity |]. split; [| constructor].
  eapply Forall2_impl; [apply update_rows_pointwise |].
  intros old new H Hne. simpl in H. unfold by_subscription_id in H.
  destruct (String.eqb_spec (stripe_subscription_id old) id);
    [contradiction | exact H].
Qed.

Lemma touches_only_append id rows row :
  stripe_subscription_id row = id -> touches_only id rows (rows ++ [row]).
Proof.
  intros Hid. exists rows, [row]. split; [reflexivity |].
  split; [| constructor; [exact Hid | constructor]].
  induction rows; constructor; auto.
Qed.

Lemma createSubscription_touches_only E sid uid cid w :
  touches_only sid (subscriptions w)
    (subscriptions (fst (createSubscription E sid uid cid w))).
Proof.
  rewrite createSubscription_eval.
  repeat match goal with
         | |- context [if ?b then _ else _] => destruct b
         | |- context [match ?x with Some _ => _ | None => _ end] => destruct x
         end;
    simpl;
    first [apply touches_only_same
          | apply touches_only_update
          | apply touches_only_append; reflexivity].
Qed.

(** X19: a request changes only rows of the subscription it is about.
    Every row of another subscription is, after the request, the same row
    at the same place, and a row the request adds carries the request's
    subscription identifier; this holds for every event and whatever
    fails. *)
Theorem request_touches_one_subscription E request w :
  touches_only (touched_id request) (subscriptions w)
    (subscriptions (fst (POST E request w))).
Proof.
  destruct request as [[session | sub | sub | sub | sub | sub | sub | ty] |];
    try apply touches_only_same;
    try (unfold POST, dispatch, touched_id;
         rewrite handleSubscriptionDeleted_eval;
         simpl; destruct (fault E _); simpl;
         [apply touches_only_same | apply touches_only_update]);
    try (unfold POST, dispatch, touched_id;
         rewrite handleSubscriptionUpdated_eval;
         destruct (date_in_range _); simpl; [| apply touches_only_same];
         destruct (fault E _); simpl;
         [apply touches_only_same | apply touches_only_update]).
  - unfold POST, dispatch, handleCheckoutSessionCompleted, touched_id.
    destruct (truthy (subscription session)) eqn:Hs;
      [| apply touches_only_same].
    destruct (truthy (customer session)) eqn:Hc; [| apply touches_only_same].
    cbn [negb]. unfold bind.
    destruct (resolveUserId_cases E session w) as [who [Hwho _]].
    rewrite Hwho. destruct who as [r | uid]; [apply touches_only_same |].
    rewrite reconcileCheckout_eval, Hs.
    destruct (negb (fault E L39_select_existing) && _);
      [apply touches_only_same |].
    pose proof (createSubscription_touches_only E
                  (as_string (subscription session)) uid
                  (as_string (customer session)) w) as H.
    destruct (createSubscription E _ uid _ w) as [w' [r | e]]; exact H.
  - unfold POST, dispatch, handleSubscriptionCreated, bind, gets, touched_id.
    destruct (checkoutSessionMap w !! sub_id sub) as [sd |];
      [| apply touches_only_same].
    pose proof (createSubscription_touches_only E (sub_id sub) (userId sd)
                  (customerId sd) w) as H.
    destruct (createSubscription E _ _ _ w) as [w' [r | e]]; exact H.
Qed.
